(** * Jobblixor backend: the auto-apply engine of [jobblixor.py]

    A shallow embedding of [apply_to_job] and of the [/submit] handler,
    with the Firestore collection ["users"] as a finite map, the browser
    and the network as an oracle that answers every external call, and a
    trace of the external calls made.

    Conventions of the embedding:
    - Python [int] is [Z]; [str] is [string] (a sequence of bytes, UTF-8
      for the few non-ASCII literals); [None] is its own value;
    - a Firestore document is a [gmap string value]; a field holds [None],
      an integer or a string (the only kinds this program writes);
    - an exception raised in a [try] body is [Raise]; [exit()] raises
      [SystemExit], which is not an [Exception] and is [SysExit] here;
    - console output ([print]) is not modelled;
    - one request at a time: nobody else writes to the store while a
      batch runs; a write that raises has written nothing; leaving the
      [with sync_playwright()] block does not itself raise. *)

From Stdlib Require Import ZArith String Ascii List Bool Lia.
From stdpp Require Import base option list gmap strings.

Local Open Scope string_scope.
Local Open Scope list_scope.
Local Open Scope Z_scope.

(** ** Python values and strings *)

Inductive value :=
| VNone
| VInt (n : Z)
| VStr (s : string).

#[global] Instance value_eq_dec : EqDecision value.
Proof. solve_decision. Defined.

(** [needle in hay] on strings. *)
Fixpoint contains (needle hay : string) : bool :=
  String.prefix needle hay
  || match hay with
     | EmptyString => false
     | String _ rest => contains needle rest
     end.

(** [s.replace(a, b)] for one-character [a] and [b]. *)
Fixpoint replace_char (a b : ascii) (s : string) : string :=
  match s with
  | EmptyString => EmptyString
  | String c rest =>
      String (if Ascii.eqb c a then b else c) (replace_char a b rest)
  end.

(** Truth value of an optional string: [None] and [""] are falsy. *)
Definition truthy (o : option string) : bool :=
  match o with
  | None | Some EmptyString => false
  | Some _ => true
  end.

(** [f"{x}"] for a string or [None]. *)
Definition fmt (o : option string) : string :=
  match o with
  | Some s => s
  | None => "None"
  end.

(** [os.path.join(a, b)] on POSIX, for [a] non-empty and not ending in
    a slash: an absolute [b] discards [a]. *)
Definition os_path_join (a b : string) : string :=
  if String.prefix "/" b then b else a +:+ "/" +:+ b.

Definition SCREENSHOT_DIR : string := "debug/screenshots".

(** [d.get(k, default)]: a key that is present wins, also when it holds
    [None]. *)
Definition dict_get (d : gmap string value) (k : string) (default : value) : value :=
  match d !! k with
  | Some v => v
  | None => default
  end.

(** ** Exceptions *)

Inductive exn_class :=
| TypeError
| AttributeError
| UnboundLocalError
| KeyError
| ValueError
| ExternalError.

Record exn := Exn { exn_cls : exn_class; exn_msg : string }.

#[global] Instance exn_class_eq_dec : EqDecision exn_class.
Proof. solve_decision. Defined.

#[global] Instance exn_eq_dec : EqDecision exn.
Proof. solve_decision. Defined.

Definition type_name (v : value) : string :=
  match v with
  | VNone => "NoneType"
  | VInt _ => "int"
  | VStr _ => "str"
  end.

Definition dquote : string := String (ascii_of_nat 34) EmptyString.

Definition le_type_error (v : value) : exn :=
  Exn TypeError
    ("'<=' not supported between instances of '" +:+ type_name v +:+ "' and 'int'").

Definition arith_type_error (sym : string) (v : value) : exn :=
  match v with
  | VStr _ =>
      if String.eqb sym "+"
      then Exn TypeError
             ("can only concatenate str (not " +:+ dquote +:+ "int" +:+ dquote +:+ ") to str")
      else Exn TypeError
             ("unsupported operand type(s) for " +:+ sym +:+ ": 'str' and 'int'")
  | _ =>
      Exn TypeError
        ("unsupported operand type(s) for " +:+ sym +:+ ": '" +:+ type_name v +:+ "' and 'int'")
  end.

Definition none_replace_error : exn :=
  Exn AttributeError "'NoneType' object has no attribute 'replace'".

Definition counts_unbound_error : exn :=
  Exn UnboundLocalError
    "cannot access local variable 'counts' where it is not associated with a value".

(** ** External calls, the oracle and the trace *)

Inductive op :=
| StoreGet (email : string)
| StoreUpdate (email : string) (fields : list (string * value))
| StoreSet (email : string) (fields : list (string * value))
| PlaywrightStart
| Launch
| NewPage
| Goto (url : string)
| Screenshot (path : string)
| Fill (selector : string) (text : option string)
| SetInputFiles (selector : string) (path : string)
| Click (selector : string)
| BrowserClose
| PlaywrightStop
| SaveFile (path : string).

Inductive event :=
| Done (o : op)
| Raised (o : op) (e : exn).

(** What the outside world answers during one call of [apply_to_job]:
    which external calls raise, and the URL of the page once loaded
    ([page.url], after redirects). *)
Record env := Env {
  fails : op -> option exn;
  page_url : string
}.

Record world := World {
  store : gmap string (gmap string value);
  trace : list event
}.

Definition log (ev : event) (w : world) : world :=
  World (store w) (trace w ++ [ev]).

(** ** The monad of a handler: state, exceptions and [SystemExit] *)

Inductive res (A : Type) :=
| Ret (a : A)
| Raise (e : exn)
| SysExit.
Arguments Ret {A} a.
Arguments Raise {A} e.
Arguments SysExit {A}.

Definition M (A : Type) : Type := world -> res A * world.

Definition ret {A} (a : A) : M A := fun w => (Ret a, w).
Definition raise {A} (e : exn) : M A := fun w => (Raise e, w).
Definition sys_exit {A} : M A := fun w => (SysExit, w).

Definition bind {A B} (m : M A) (k : A -> M B) : M B :=
  fun w =>
    match m w with
    | (Ret a, w') => k a w'
    | (Raise e, w') => (Raise e, w')
    | (SysExit, w') => (SysExit, w')
    end.

Declare Scope py_scope.
Delimit Scope py_scope with py.
Notation "x <- m ;; k" := (bind m (fun x => k))
  (at level 100, m at next level, right associativity) : py_scope.
Notation "m ;; k" := (bind m (fun _ => k))
  (at level 100, right associativity) : py_scope.
Local Open Scope py_scope.

(** [try: body  except Exception as e: handler e]. [SystemExit] derives
    from [BaseException] and passes through. *)
Definition try_except {A} (body : M A) (handler : exn -> M A) : M A :=
  fun w =>
    match body w with
    | (Raise e, w') => handler e w'
    | r => r
    end.

(** An external call: the oracle decides whether it raises. *)
Definition call (E : env) (o : op) : M unit :=
  fun w =>
    match fails E o with
    | Some e => (Raise e, log (Raised o e) w)
    | None => (Ret tt, log (Done o) w)
    end.

(** [with sync_playwright() as p: body]. [__exit__] runs however the
    body ends and stops the driver, which ends every browser it
    launched. *)
Definition with_playwright {A} (E : env) (body : M A) : M A :=
  call E PlaywrightStart ;;
  fun w => let '(r, w') := body w in (r, log (Done PlaywrightStop) w').

(** [doc_ref.get()]: the snapshot, [None] when [doc.exists] is false. *)
Definition store_get (E : env) (email : string) : M (option (gmap string value)) :=
  call E (StoreGet email) ;;
  fun w => (Ret (store w !! email), w).

(** Field-wise merge of a Python dict, in order, into a document. *)
Definition merge_fields (fields : list (string * value)) (d : gmap string value)
  : gmap string value :=
  fold_left (fun acc kv => <[fst kv := snd kv]> acc) fields d.

Definition not_found_error : exn := Exn ExternalError "404 No document to update".

(** [doc_ref.update(fields)]: merges into an existing document, raises
    NotFound when there is none. *)
Definition store_update (E : env) (email : string) (fields : list (string * value)) : M unit :=
  call E (StoreUpdate email fields) ;;
  fun w =>
    match store w !! email with
    | Some d => (Ret tt, World (<[email := merge_fields fields d]> (store w)) (trace w))
    | None => (Raise not_found_error, w)
    end.

(** [doc_ref.set(fields)]: replaces the document. *)
Definition store_set (E : env) (email : string) (fields : list (string * value)) : M unit :=
  call E (StoreSet email fields) ;;
  fun w => (Ret tt, World (<[email := merge_fields fields ∅]> (store w)) (trace w)).

(** ** Python operators on stored values *)

(** [v <= 0] *)
Definition py_le_zero (v : value) : M bool :=
  match v with
  | VInt n => ret (n <=? 0)
  | _ => raise (le_type_error v)
  end.

(** [v + 1] *)
Definition py_add_one (v : value) : M value :=
  match v with
  | VInt n => ret (VInt (n + 1))
  | _ => raise (arith_type_error "+" v)
  end.

(** [max(0, v - 1)] *)
Definition py_max0_sub_one (v : value) : M value :=
  match v with
  | VInt n => ret (VInt (Z.max 0 (n - 1)))
  | _ => raise (arith_type_error "-" v)
  end.

(** [s.replace(' ', '_')] on a string or [None]. *)
Definition py_underscored (o : option string) : M string :=
  match o with
  | Some s => ret (replace_char " " "_" s)
  | None => raise none_replace_error
  end.

(** ** Postings, user data and outcomes *)

(** One entry of [fetch_jobs]: the three keys are always present; each
    holds a string or [None]. *)
Record job := Job {
  job_title : option string;
  job_company : option string;
  job_link : option string
}.

(** The keys of [user_data] that [apply_to_job] reads. *)
Record user_data := UserData {
  ud_email : string;
  ud_first_name : option string;
  ud_last_name : option string;
  ud_phone : option string;
  ud_resume_path : string
}.

Inductive outcome :=
| Success
| SkippedInvalidLink
| Failed (e : exn).

(** The string [apply_to_job] returns. *)
Definition status_text (o : outcome) : string :=
  match o with
  | Success => "Success (screenshot taken)"
  | SkippedInvalidLink => "Skipped (invalid link)"
  | Failed e => "Failed (" +:+ exn_msg e +:+ ")"
  end.

(** Line 180: the path of the screenshot; [.replace] on a [None] title
    or company raises. *)
Definition screenshot_path (j : job) : M string :=
  t <- py_underscored (job_title j) ;;
  c <- py_underscored (job_company j) ;;
  ret (os_path_join SCREENSHOT_DIR (t +:+ "_" +:+ c +:+ ".png")).

(** The Greenhouse form, lines 184-189. *)
Definition fill_greenhouse (E : env) (ud : user_data) : M unit :=
  call E (Fill "input[name='first_name']" (ud_first_name ud)) ;;
  call E (Fill "input[name='last_name']" (ud_last_name ud)) ;;
  call E (Fill "input[type='email']" (Some (ud_email ud))) ;;
  call E (Fill "input[type='tel']" (ud_phone ud)) ;;
  call E (SetInputFiles "input[type='file']" (ud_resume_path ud)) ;;
  call E (Click "button[type='submit']").

(** Lines 164-168: [counts] is bound only when the document exists. *)
Definition quota_gate (doc : option (gmap string value)) : M (option (gmap string value)) :=
  match doc with
  | Some counts =>
      out <- py_le_zero (dict_get counts "free_uses_left" (VInt 0)) ;;
      if (out : bool) then sys_exit else ret (Some counts)
  | None => ret None
  end.

(** Lines 193-196: the dict literal is evaluated before [update] is
    called; reading the unbound [counts] raises. *)
Definition commit_counters (E : env) (email : string)
    (counts : option (gmap string value)) : M unit :=
  match counts with
  | None => raise counts_unbound_error
  | Some c =>
      ac <- py_add_one (dict_get c "application_count" (VInt 0)) ;;
      fu <- py_max0_sub_one (dict_get c "free_uses_left" (VInt 0)) ;;
      store_update E email [("application_count", ac); ("free_uses_left", fu)]
  end.

(** Lines 174-198. *)
Definition browse_and_apply (E : env) (j : job) (ud : user_data) (url : string)
    (counts : option (gmap string value)) : M outcome :=
  with_playwright E
    (call E Launch ;;
     call E NewPage ;;
     call E (Goto url) ;;
     let domain := page_url E in
     path <- screenshot_path j ;;
     call E (Screenshot path) ;;
     (if contains "greenhouse.io" domain then fill_greenhouse E ud else ret tt) ;;
     call E BrowserClose ;;
     commit_counters E (ud_email ud) counts ;;
     ret Success).

(** Lines 159-200. The link test of lines 170-172 is
    [not url or "http" not in url]; a [None] link is falsy. *)
Definition apply_to_job (E : env) (j : job) (ud : user_data) : M outcome :=
  try_except
    (let email := ud_email ud in
     doc <- store_get E email ;;
     counts <- quota_gate doc ;;
     match job_link j with
     | Some url =>
         if negb (truthy (Some url)) || negb (contains "http" url)
         then ret SkippedInvalidLink
         else browse_and_apply E j ud url counts
     | None => ret SkippedInvalidLink
     end)
    (fun e => ret (Failed e)).

(** ** The [/submit] handler *)

(** The en dash of the log line, in UTF-8. *)
Definition en_dash : string :=
  String (ascii_of_nat 226) (String (ascii_of_nat 128) (String (ascii_of_nat 147) EmptyString)).

(** [f"{job['title']} at {job['company']} – {status}"] *)
Definition log_line (j : job) (status : outcome) : string :=
  fmt (job_title j) +:+ " at " +:+ fmt (job_company j)
    +:+ " " +:+ en_dash +:+ " " +:+ status_text status.

(** Lines 317-322: the loop over [job_results]; [E i] answers the
    external calls of the posting at position [i]. *)
Fixpoint submit_loop (E : nat -> env) (i : nat) (jobs : list job) (ud : user_data)
    (logs : list string) : M (list string) :=
  match jobs with
  | [] => ret logs
  | j :: rest =>
      status <- apply_to_job (E i) j ud ;;
      submit_loop E (S i) rest ud (logs ++ [log_line j status])
  end.

(** A request: form fields, query arguments and uploaded files (field
    name to file name). *)
Record request := Request {
  form : gmap string string;
  args : gmap string string;
  files : gmap string string
}.

(** [request.form.get(k) or request.args.get(k)] *)
Definition param (r : request) (k : string) : option string :=
  if truthy (form r !! k) then form r !! k else args r !! k.

Inductive response :=
| JsonError (code : Z) (message : string)
| JsonSuccess (log : list string).

(** One result of the search API: [apply_options], when present, is a
    list of objects whose ["link"] may be missing or [null]. *)
Record raw_job := RawJob {
  raw_title : option string;
  raw_company : option string;
  raw_apply_options : option (list (option (option string)))
}.

(** What the outside world answers during one request. *)
Record submit_env := SubmitEnv {
  sv_env : env;
  sv_hashpw : string -> string;
  sv_now : string;
  sv_int : string -> option Z;
  sv_serp_key : bool;
  sv_search : string -> option (list raw_job);
  sv_jobs_env : nat -> env
}.

(** [l[:limit]] *)
Definition py_take {A} (limit : Z) (l : list A) : list A :=
  if 0 <=? limit then take (Z.to_nat limit) l
  else take (Z.to_nat (Z.of_nat (length l) + limit)) l.

(** Line 148; [None] stands for the [IndexError] of an empty list. *)
Definition link_of (r : raw_job) : option (option string) :=
  match raw_apply_options r with
  | None => Some (Some "N/A")
  | Some [] => None
  | Some (None :: _) => Some (Some "N/A")
  | Some (Some l :: _) => Some l
  end.

Definition job_of_raw (r : raw_job) : option job :=
  match link_of r with
  | Some l => Some (Job (raw_title r) (raw_company r) l)
  | None => None
  end.

(** The body of the [try] in [fetch_jobs]: any exception inside it
    yields the empty list. *)
Definition found_jobs (S : submit_env) (job_title location : option string) (limit : Z)
  : list job :=
  let query := fmt job_title +:+ " in " +:+ fmt location in
  match sv_search S query with
  | Some raws => default [] (mapM job_of_raw (py_take limit raws))
  | None => []
  end.

(** [fetch_jobs]: the key lookup is outside the [try]. *)
Definition fetch_jobs (S : submit_env) (job_title location : option string) (limit : Z)
  : M (list job) :=
  if sv_serp_key S then ret (found_jobs S job_title location limit)
  else raise (Exn KeyError "'SERP_API_KEY'").

Definition vstr (o : option string) : value :=
  match o with
  | Some s => VStr s
  | None => VNone
  end.

(** Lines 262-270 for one upload field. A file object is truthy when
    its file name is not empty. *)
Definition save_upload (S : submit_env) (r : request) (field : string) : M (option string) :=
  if truthy (files r !! field) then
    let path := os_path_join "uploads" (default "" (files r !! field)) in
    call (sv_env S) (SaveFile path) ;;
    ret (Some path)
  else ret None.

(** [a or b] for an optional string and a literal. *)
Definition or_else (o : option string) (d : string) : string :=
  if truthy o then default d o else d.

(** Lines 276-289: the dict built from the request, in insertion
    order. *)
Definition request_fields (job_title location first_name last_name phone : option string)
    (email hashed_pw : string) (preferred_salary : option string)
    (resume_path profile_photo_path : option string) (num_jobs : Z) (now : string)
  : list (string * value) :=
  [ ("job_title", vstr job_title);
    ("location", vstr location);
    ("first_name", vstr first_name);
    ("last_name", vstr last_name);
    ("phone", vstr phone);
    ("email", VStr email);
    ("password_hash", VStr hashed_pw);
    ("salary", vstr preferred_salary);
    ("resume_path", VStr (or_else resume_path "uploads/resume.pdf"));
    ("profile_photo", VStr (or_else profile_photo_path "uploads/photo.jpg"));
    ("num_jobs", VInt num_jobs);
    ("updated_at", VStr now) ].

(** Lines 295-299: copied from the stored document, with defaults. *)
Definition preserved_fields (old_data : gmap string value) (now : string)
  : list (string * value) :=
  [ ("free_uses_left", dict_get old_data "free_uses_left" (VInt 5));
    ("application_count", dict_get old_data "application_count" (VInt 0));
    ("plan_id", dict_get old_data "plan_id" (VStr "free"));
    ("subscription_status", dict_get old_data "subscription_status" (VStr "active"));
    ("created_at", dict_get old_data "created_at" (VStr now)) ].

(** Lines 304-311. *)
Definition new_user_fields (now : string) : list (string * value) :=
  [ ("free_uses_left", VInt 5);
    ("application_count", VInt 0);
    ("plan_id", VStr "free");
    ("subscription_status", VStr "active");
    ("created_at", VStr now);
    ("stripe_customer_id", VNone) ].

(** Lines 291-312. *)
Definition save_profile (E : env) (email : string) (doc : option (gmap string value))
    (fields : list (string * value)) (now : string) : M unit :=
  match doc with
  | Some old_data => store_update E email (fields ++ preserved_fields old_data now)
  | None => store_set E email (fields ++ new_user_fields now)
  end.

(** Lines 316-324. *)
Definition auto_apply (S : submit_env) (job_title location : option string)
    (num_jobs : Z) (ud : user_data) : M response :=
  job_results <- fetch_jobs S job_title location num_jobs ;;
  logs <- submit_loop (sv_jobs_env S) 0 job_results ud [] ;;
  ret (JsonSuccess logs).

Definition option_string_eqb (a b : option string) : bool :=
  bool_decide (a = b).

Definition submit (S : submit_env) (r : request) : M response :=
  let job_title := param r "job_title" in
  let location := param r "location" in
  let first_name := param r "first_name" in
  let last_name := param r "last_name" in
  let phone := param r "phone_number" in
  let email := param r "email" in
  let password := param r "password" in
  let confirm := param r "confirm_password" in
  let preferred_salary := param r "preferred_salary" in
  let num_jobs := param r "num_jobs" in
  if negb (truthy email) || negb (option_string_eqb password confirm) then
    ret (JsonError 400 "Missing or mismatched credentials.")
  else if negb (truthy password) then
    ret (JsonError 400 "Missing password.")
  else
    let email := default "" email in
    let hashed_pw := sv_hashpw S (default "" password) in
    resume_path <- save_upload S r "resume" ;;
    profile_photo_path <- save_upload S r "profilePhoto" ;;
    let now := sv_now S in
    doc <- store_get (sv_env S) email ;;
    n <- (if truthy num_jobs then
            match sv_int S (default "" num_jobs) with
            | Some n => ret n
            | None =>
                raise (Exn ValueError
                         ("invalid literal for int() with base 10: '"
                            +:+ default "" num_jobs +:+ "'"))
            end
          else ret 5) ;;
    let fields :=
      request_fields job_title location first_name last_name phone email hashed_pw
        preferred_salary resume_path profile_photo_path n now in
    save_profile (sv_env S) email doc fields now ;;
    auto_apply S job_title location n
      (UserData email first_name last_name phone (or_else resume_path "uploads/resume.pdf")).

(** ** Observations on stores and traces *)

(** The events a computation added to the trace. *)
Definition new_events (w w' : world) : list event :=
  drop (length (trace w)) (trace w').

(** A counter of a user as the program reads it: [counts.get(k, 0)],
    and 0 when there is no document or no integer. *)
Definition int_field (st : gmap string (gmap string value)) (email k : string) : Z :=
  match st !! email with
  | Some d =>
      match d !! k with
      | Some (VInt n) => n
      | _ => 0
      end
  | None => 0
  end.

Definition free_uses_left (w : world) (email : string) : Z :=
  int_field (store w) email "free_uses_left".

Definition application_count (w : world) (email : string) : Z :=
  int_field (store w) email "application_count".

Definition event_op (ev : event) : op :=
  match ev with
  | Done o | Raised o _ => o
  end.

Definition is_form_op (o : op) : bool :=
  match o with
  | Fill _ _ | SetInputFiles _ _ | Click _ => true
  | _ => false
  end.

Definition is_update_op (o : op) : bool :=
  match o with
  | StoreUpdate _ _ => true
  | _ => false
  end.

Definition is_screenshot_op (o : op) : bool :=
  match o with
  | Screenshot _ => true
  | _ => false
  end.

(** Number of attempts, successful or not, to write the counters. *)
Definition update_attempts (evs : list event) : nat :=
  length (List.filter (fun ev => is_update_op (event_op ev)) evs).

Fixpoint count_success (sts : list outcome) : Z :=
  match sts with
  | [] => 0
  | Success :: rest => 1 + count_success rest
  | _ :: rest => count_success rest
  end.

(** The browser session as the trace shows it: none, or a running
    Playwright driver with or without a launched browser. *)
Inductive session :=
| NoSession
| Driver (browser_open : bool).

(** One event against the session protocol; [None] when the event is
    impossible in that state (a second driver while one runs, a page
    action without a browser, a stop without a start). Stopping the
    driver ends its browser. *)
Definition session_step (s : session) (ev : event) : option session :=
  match ev, s with
  | Done PlaywrightStart, NoSession => Some (Driver false)
  | Raised PlaywrightStart _, NoSession => Some NoSession
  | Done PlaywrightStop, Driver _ => Some NoSession
  | Done Launch, Driver false => Some (Driver true)
  | Raised Launch _, Driver false => Some (Driver false)
  | Done BrowserClose, Driver true => Some (Driver false)
  | Raised BrowserClose _, Driver true => Some (Driver true)
  | (Done o | Raised o _), Driver true =>
      match o with
      | NewPage | Goto _ | Screenshot _ | Fill _ _ | SetInputFiles _ _ | Click _ => Some s
      | StoreGet _ | StoreUpdate _ _ | StoreSet _ _ | SaveFile _ => Some s
      | _ => None
      end
  | (Done o | Raised o _), _ =>
      match o with
      | StoreGet _ | StoreUpdate _ _ | StoreSet _ _ | SaveFile _ => Some s
      | _ => None
      end
  end.

Fixpoint replay (s : session) (evs : list event) : option session :=
  match evs with
  | [] => Some s
  | ev :: rest =>
      match session_step s ev with
      | Some s' => replay s' rest
      | None => None
      end
  end.

(** The postings of a batch that returned, with their outcomes and the
    worlds between them: the loop's sequential semantics as a
    relation. *)
Inductive batch_run (E : nat -> env) (ud : user_data)
  : nat -> list job -> world -> list outcome -> world -> Prop :=
| batch_nil i w : batch_run E ud i [] w [] w
| batch_cons i j rest w st w1 sts w' :
    apply_to_job (E i) j ud w = (Ret st, w1) ->
    batch_run E ud (S i) rest w1 sts w' ->
    batch_run E ud i (j :: rest) w (st :: sts) w'.

(** The link test of the specification: an [http] or [https] scheme. *)
Definition has_http_scheme (url : string) : bool :=
  String.prefix "http://" url || String.prefix "https://" url.

(** Whether every form action in a trace comes after a screenshot was
    taken. *)
Fixpoint screenshot_first (evs : list event) : bool :=
  match evs with
  | [] => true
  | Done (Screenshot _) :: _ => true
  | ev :: rest => negb (is_form_op (event_op ev)) && screenshot_first rest
  end.

Definition preserved_keys : list string :=
  ["free_uses_left"; "application_count"; "plan_id"; "subscription_status"; "created_at"].

Definition request_keys : list string :=
  ["job_title"; "location"; "first_name"; "last_name"; "phone"; "email";
   "password_hash"; "salary"; "resume_path"; "profile_photo"; "num_jobs"; "updated_at"].

(** ** Running a computation *)

Definition outcome_of {A} (m : M A) (w : world) : res A := fst (m w).
Definition world_after {A} (m : M A) (w : world) : world := snd (m w).
Definition events_of {A} (m : M A) (w : world) : list event :=
  new_events w (snd (m w)).

(** ** Conditions of [apply_to_job] *)

(** The link test of [apply_to_job] on its own:
    [not url or "http" not in url]. *)
Definition invalid_link (l : option string) : bool :=
  match l with
  | Some url => negb (truthy (Some url)) || negb (contains "http" url)
  | None => true
  end.

(** The gate lets a call through when there is no document, or a
    positive integer is stored. *)
Definition gate_open (w : world) (email : string) : Prop :=
  store w !! email = None
  \/ exists d n, store w !! email = Some d
                 /\ d !! "free_uses_left" = Some (VInt n) /\ 0 < n.

(** ** Sample data *)

Definition all_ok (url : string) : env := Env (fun _ => None) url.

(** Every external call succeeds except the ones [bad] picks out. *)
Definition failing (bad : op -> bool) (e : exn) (url : string) : env :=
  Env (fun o => if bad o then Some e else None) url.

Definition ann : user_data :=
  UserData "ann@example.com" (Some "Ann") (Some "Lee") (Some "555-0100")
    "uploads/resume.pdf".

Definition ann_doc (free count : Z) : gmap string value :=
  {[ "free_uses_left" := VInt free; "application_count" := VInt count ]}.

Definition ann_world (free count : Z) : world :=
  World {[ "ann@example.com" := ann_doc free count ]} [].

Definition empty_world : world := World ∅ [].

Definition greenhouse_url : string := "https://boards.greenhouse.io/acme/jobs/1".
Definition other_url : string := "https://careers.example.com/apply/2".

Definition greenhouse_job : job :=
  Job (Some "Cashier") (Some "Acme Corp") (Some greenhouse_url).

Definition other_job : job :=
  Job (Some "Line Cook") (Some "Bistro 9") (Some other_url).

Definition no_link_job : job :=
  Job (Some "Clerk") (Some "Shop") (Some "").

Definition timeout_error : exn := Exn ExternalError "Timeout 30000ms exceeded.".
Definition unavailable_error : exn := Exn ExternalError "503 The service is currently unavailable.".

(** A request of an existing user, and the answers of the outside
    world to it: [raws] is what the search API finds. *)
Definition ann_request : request :=
  Request
    {[ "email" := "ann@example.com"; "password" := "pw"; "confirm_password" := "pw";
       "job_title" := "Cashier"; "location" := "Austin" ]}
    ∅ ∅.

Definition ann_submit_env (raws : list raw_job) : submit_env :=
  SubmitEnv (all_ok "") (fun p => "$2b$12$" +:+ p) "2024-05-01T10:00:00"
    (fun _ => None) true (fun _ => Some raws) (fun _ => all_ok greenhouse_url).

Definition greenhouse_raw : raw_job :=
  RawJob (Some "Cashier") (Some "Acme Corp") (Some [Some (Some greenhouse_url)]).

(** A stored document without [plan_id] and [created_at]. *)
Definition bare_doc : gmap string value :=
  {[ "email" := VStr "ann@example.com"; "free_uses_left" := VInt 5;
     "application_count" := VInt 2 ]}.

(** ** The command-line flow *)

Definition UPLOAD_DIR : string := "uploads".

(** [os.path.basename] on POSIX: what follows the last slash. *)
Fixpoint basename (p : string) : string :=
  match p with
  | EmptyString => EmptyString
  | String c rest =>
      if contains "/" rest then basename rest
      else if Ascii.eqb c "/" then rest
      else String c rest
  end.

(** What is typed at the prompts of [get_user_inputs], in the order of
    the prompts; the confirmation is asked of a new user only. *)
Record answers := Answers {
  a_job_title : string;
  a_location : string;
  a_first_name : string;
  a_last_name : string;
  a_phone : string;
  a_email : string;
  a_password : string;
  a_confirm : string;
  a_resume_path : string;
  a_profile_photo : string;
  a_preferred_salary : string;
  a_num_jobs : string
}.

(** The dict [get_user_inputs] returns. *)
Record user_input := UserInput {
  ui_job_title : string;
  ui_location : string;
  ui_first_name : string;
  ui_last_name : string;
  ui_phone : string;
  ui_email : string;
  ui_password_hash : option string;
  ui_resume_path : string;
  ui_profile_photo : option string;
  ui_preferred_salary : string;
  ui_num_jobs : Z
}.

(** What the outside world answers during one run of the command-line
    program: the answers of the web handler's world, [DEFAULT_EMAIL],
    Python's [str.strip], [bcrypt.checkpw] (which raises on a malformed
    hash) and whether a file to copy can be opened for reading. *)
Record cli_env := CliEnv {
  cli_web : submit_env;
  cli_default_email : string;
  cli_strip : string -> string;
  cli_checkpw : string -> string -> exn + bool;
  cli_open_source : string -> option exn
}.

(** Lines 68-69 and 75-76: the source is opened first, then the
    destination is written. *)
Definition copy_file (C : cli_env) (src dst : string) : M unit :=
  match cli_open_source C src with
  | Some e => raise e
  | None => call (sv_env (cli_web C)) (SaveFile dst)
  end.

Definition int_encode_error : exn :=
  Exn AttributeError "'int' object has no attribute 'encode'".

(** Line 51, negated: whether the typed password is accepted against
    the stored [password_hash] ([None] when the field is missing). A
    falsy stored value refuses without calling [bcrypt]. *)
Definition check_password (C : cli_env) (password : string) (stored : option value)
  : M bool :=
  match stored with
  | None | Some VNone => ret false
  | Some (VStr s) =>
      if truthy (Some s) then
        match cli_checkpw C password s with
        | inl e => raise e
        | inr ok => ret ok
        end
      else ret false
  | Some (VInt n) => if n =? 0 then ret false else raise int_encode_error
  end.

(** Lines 49-59: [None] for a user who exists, the hash of the typed
    password for a new one. *)
Definition authenticate (C : cli_env) (a : answers) (doc : option (gmap string value))
  : M (option string) :=
  match doc with
  | Some d =>
      ok <- check_password C (a_password a) (d !! "password_hash") ;;
      if (ok : bool) then ret None else sys_exit
  | None =>
      if String.eqb (a_password a) (a_confirm a)
      then ret (Some (sv_hashpw (cli_web C) (a_password a)))
      else sys_exit
  end.

(** Lines 33-90. *)
Definition get_user_inputs (C : cli_env) (a : answers) : M user_input :=
  let email := or_else (Some (a_email a)) (cli_default_email C) in
  if negb (contains "@" email) || negb (contains "." email) then sys_exit
  else
    doc <- store_get (sv_env (cli_web C)) email ;;
    hashed_pw <- authenticate C a doc ;;
    num_jobs <- match sv_int (cli_web C) (a_num_jobs a) with
                | Some n => ret n
                | None =>
                    raise (Exn ValueError
                             ("invalid literal for int() with base 10: '"
                                +:+ a_num_jobs a +:+ "'"))
                end ;;
    let saved_resume_path := os_path_join UPLOAD_DIR (basename (a_resume_path a)) in
    copy_file C (a_resume_path a) saved_resume_path ;;
    profile_photo_path <-
      (if truthy (Some (a_profile_photo a)) then
         let path := os_path_join UPLOAD_DIR (basename (a_profile_photo a)) in
         copy_file C (a_profile_photo a) path ;;
         ret (Some path)
       else ret None) ;;
    ret (UserInput (cli_strip C (a_job_title a)) (cli_strip C (a_location a))
           (cli_strip C (a_first_name a)) (cli_strip C (a_last_name a))
           (cli_strip C (a_phone a)) (cli_strip C email) hashed_pw
           saved_resume_path profile_photo_path
           (cli_strip C (a_preferred_salary a)) num_jobs).

(** Lines 98-106. *)
Definition cli_updates (ui : user_input) (now : string) : list (string * value) :=
  [ ("job_title", VStr (ui_job_title ui));
    ("location", VStr (ui_location ui));
    ("salary", VStr (ui_preferred_salary ui));
    ("phone", VStr (ui_phone ui));
    ("resume", VStr (ui_resume_path ui));
    ("profile_photo", vstr (ui_profile_photo ui));
    ("updated_at", VStr now) ].

(** Lines 112-123: the keys of [user_input] first, then the added
    ones. *)
Definition cli_new_user_data (ui : user_input) (now : string) : list (string * value) :=
  [ ("job_title", VStr (ui_job_title ui));
    ("location", VStr (ui_location ui));
    ("first_name", VStr (ui_first_name ui));
    ("last_name", VStr (ui_last_name ui));
    ("phone", VStr (ui_phone ui));
    ("email", VStr (ui_email ui));
    ("password_hash", vstr (ui_password_hash ui));
    ("resume_path", VStr (ui_resume_path ui));
    ("profile_photo", vstr (ui_profile_photo ui));
    ("preferred_salary", VStr (ui_preferred_salary ui));
    ("num_jobs", VInt (ui_num_jobs ui));
    ("resume", VStr (ui_resume_path ui));
    ("application_count", VInt 0);
    ("free_uses_left", VInt 5);
    ("plan_id", VStr "free");
    ("subscription_status", VStr "active");
    ("created_at", VStr now);
    ("updated_at", VStr now);
    ("stripe_customer_id", VNone) ].

(** Lines 92-129; the dump of line 127 is the write of
    [user_data.json]. *)
Definition save_user_data (E : env) (now : string) (ui : user_input) : M unit :=
  let email := ui_email ui in
  doc <- store_get E email ;;
  match doc with
  | Some _ => store_update E email (cli_updates ui now)
  | None => store_set E email (cli_new_user_data ui now)
  end ;;
  call E (SaveFile "user_data.json").

Definition cross_mark : string :=
  String (ascii_of_nat 226) (String (ascii_of_nat 157) (String (ascii_of_nat 140) EmptyString)).

Definition check_mark : string :=
  String (ascii_of_nat 226) (String (ascii_of_nat 156) (String (ascii_of_nat 133) EmptyString)).

(** The line printed at line 228. *)
Definition report_line (j : job) (status : outcome) : string :=
  if contains "Failed" (status_text status)
  then cross_mark +:+ " Error applying to " +:+ fmt (job_title j) +:+ " at "
         +:+ fmt (job_company j) +:+ " " +:+ en_dash +:+ " " +:+ status_text status
  else check_mark +:+ " Applied to " +:+ fmt (job_title j) +:+ " at "
         +:+ fmt (job_company j) +:+ " " +:+ en_dash +:+ " " +:+ status_text status.

(** Lines 225-228: the loop of [main]; the lines it prints are
    returned. *)
Fixpoint main_loop (E : nat -> env) (i : nat) (jobs : list job) (ud : user_data)
    (printed : list string) : M (list string) :=
  match jobs with
  | [] => ret printed
  | j :: rest =>
      status <- apply_to_job (E i) j ud ;;
      main_loop E (S i) rest ud (printed ++ [report_line j status])
  end.

(** The keys of [user_data] that [apply_to_job] reads, for the dict of
    [get_user_inputs]. *)
Definition user_data_of (ui : user_input) : user_data :=
  UserData (ui_email ui) (Some (ui_first_name ui)) (Some (ui_last_name ui))
    (Some (ui_phone ui)) (ui_resume_path ui).

(** Lines 202-228; line 209 reads the API key outside any [try]. *)
Definition main (C : cli_env) (a : answers) : M (list string) :=
  let S := cli_web C in
  user_data <- get_user_inputs C a ;;
  save_user_data (sv_env S) (sv_now S) user_data ;;
  (if sv_serp_key S then ret tt else raise (Exn KeyError "'SERP_API_KEY'")) ;;
  store_get (sv_env S) (ui_email user_data) ;;
  job_results <- fetch_jobs S (Some (ui_job_title user_data))
                   (Some (ui_location user_data)) (ui_num_jobs user_data) ;;
  main_loop (sv_jobs_env S) 0 job_results (user_data_of user_data) [].

(** ** More observations *)

(** The path an upload of [/submit] is saved under, when there is
    one. *)
Definition upload_path (r : request) (field : string) : option string :=
  if truthy (files r !! field)
  then Some (os_path_join "uploads" (default "" (files r !! field)))
  else None.

(** A request that passes the two credential checks of [/submit]. *)
Definition valid_credentials (r : request) : Prop :=
  truthy (param r "email") = true
  /\ param r "password" = param r "confirm_password"
  /\ truthy (param r "password") = true.

(** [user_data["num_jobs"]] of a request whose number parses. *)
Definition requested_jobs (S : submit_env) (r : request) : option Z :=
  if truthy (param r "num_jobs") then sv_int S (default "" (param r "num_jobs"))
  else Some 5.

Definition new_user_keys : list string :=
  ["free_uses_left"; "application_count"; "plan_id"; "subscription_status";
   "created_at"; "stripe_customer_id"].

Definition cli_update_keys : list string :=
  ["job_title"; "location"; "salary"; "phone"; "resume"; "profile_photo"; "updated_at"].

(** What [apply_to_job] may change in the store: the two counters of
    the caller's document, and nothing else. *)
Definition counters_only (st st' : gmap string (gmap string value)) (email : string)
  : Prop :=
  (forall other, other <> email -> st' !! other = st !! other)
  /\ (is_Some (st' !! email) <-> is_Some (st !! email))
  /\ (forall k, k <> "application_count" -> k <> "free_uses_left" ->
        (st' !! email) ≫= (.!! k) = (st !! email) ≫= (.!! k)).

(** The exact external calls of a call that returns Success. *)
Definition success_events (ud : user_data) (url path : string)
    (greenhouse : bool) (ac fu : Z) : list event :=
  [ Done (StoreGet (ud_email ud)); Done PlaywrightStart; Done Launch; Done NewPage;
    Done (Goto url); Done (Screenshot path) ]
  ++ (if greenhouse then
        [ Done (Fill "input[name='first_name']" (ud_first_name ud));
          Done (Fill "input[name='last_name']" (ud_last_name ud));
          Done (Fill "input[type='email']" (Some (ud_email ud)));
          Done (Fill "input[type='tel']" (ud_phone ud));
          Done (SetInputFiles "input[type='file']" (ud_resume_path ud));
          Done (Click "button[type='submit']") ]
      else [])
  ++ [ Done BrowserClose;
       Done (StoreUpdate (ud_email ud)
               [("application_count", VInt ac); ("free_uses_left", VInt fu)]);
       Done PlaywrightStop ].

(** ** Observations on a [/submit] request *)

Definition request_email (r : request) : string := default "" (param r "email").

(** The dict of lines 276-289 for a request whose [num_jobs] is [n]. *)
Definition submitted_fields (S : submit_env) (r : request) (n : Z) : list (string * value) :=
  request_fields (param r "job_title") (param r "location") (param r "first_name")
    (param r "last_name") (param r "phone_number") (request_email r)
    (sv_hashpw S (default "" (param r "password"))) (param r "preferred_salary")
    (upload_path r "resume") (upload_path r "profilePhoto") n (sv_now S).

(** The files a request saves, in order. *)
Definition upload_events (r : request) : list event :=
  match upload_path r "resume" with
  | Some p => [Done (SaveFile p)]
  | None => []
  end
  ++ match upload_path r "profilePhoto" with
     | Some p => [Done (SaveFile p)]
     | None => []
     end.

(** What the profile step writes, given the document it read. *)
Definition saved_fields (S : submit_env) (r : request) (n : Z)
    (old : option (gmap string value)) : list (string * value) :=
  submitted_fields S r n
  ++ match old with
     | Some old_data => preserved_fields old_data (sv_now S)
     | None => new_user_fields (sv_now S)
     end.

Definition profile_after (S : submit_env) (r : request) (n : Z)
    (old : option (gmap string value)) : gmap string value :=
  merge_fields (saved_fields S r n old) (default ∅ old).

Definition save_event (S : submit_env) (r : request) (n : Z)
    (old : option (gmap string value)) : event :=
  match old with
  | Some _ => Done (StoreUpdate (request_email r) (saved_fields S r n old))
  | None => Done (StoreSet (request_email r) (saved_fields S r n old))
  end.

(** The world in which the batch of a request starts, once the profile
    has been saved. *)
Definition world_after_profile (S : submit_env) (r : request) (n : Z) (w : world) : world :=
  World
    (<[request_email r := profile_after S r n (store w !! request_email r)]> (store w))
    (trace w ++ upload_events r
       ++ [Done (StoreGet (request_email r));
           save_event S r n (store w !! request_email r)]).

(** The keys of the request that [apply_to_job] reads. *)
Definition request_user (r : request) : user_data :=
  UserData (request_email r) (param r "first_name") (param r "last_name")
    (param r "phone_number") (or_else (upload_path r "resume") "uploads/resume.pdf").

Definition cli_new_user_keys : list string :=
  ["job_title"; "location"; "first_name"; "last_name"; "phone"; "email";
   "password_hash"; "resume_path"; "profile_photo"; "preferred_salary"; "num_jobs";
   "resume"; "application_count"; "free_uses_left"; "plan_id"; "subscription_status";
   "created_at"; "updated_at"; "stripe_customer_id"].

(** The email [get_user_inputs] works with: the one typed, or
    [DEFAULT_EMAIL] when nothing was typed. *)
Definition typed_email (C : cli_env) (a : answers) : string :=
  or_else (Some (a_email a)) (cli_default_email C).

(** Lines 204-205 of [main]. *)
Definition sign_in (C : cli_env) (a : answers) : M unit :=
  bind (get_user_inputs C a)
    (fun user_data => save_user_data (sv_env (cli_web C)) (sv_now (cli_web C)) user_data).

(** A stored [password_hash] that Python takes for false. *)
Definition falsy_hash (stored : option value) : Prop :=
  stored = None \/ stored = Some VNone \/ stored = Some (VStr "") \/ stored = Some (VInt 0).

(** Sample data for the command-line flow. *)
Fixpoint lstrip_spaces (s : string) : string :=
  match s with
  | String c rest => if Ascii.eqb c " " then lstrip_spaces rest else s
  | EmptyString => EmptyString
  end.

Definition ann_cli_env (accept : bool) : cli_env :=
  CliEnv
    (SubmitEnv (all_ok "") (fun p => "$2b$12$" +:+ p) "2024-05-01T10:00:00"
       (fun s => if String.eqb s "3" then Some 3 else None) true (fun _ => Some [])
       (fun _ => all_ok greenhouse_url))
    "me@jobblixor.local" lstrip_spaces (fun _ _ => inr accept) (fun _ => None).

Definition ann_answers (email : string) : answers :=
  Answers "Cashier" "Austin" "Ann" "Lee" "555-0100" email "pw" "pw"
    "/home/ann/cv/resume.pdf" "" "15" "3".

Definition ann_account : gmap string value :=
  {[ "email" := VStr "ann@example.com"; "password_hash" := VStr "$2b$12$secret";
     "free_uses_left" := VInt 5; "application_count" := VInt 2;
     "first_name" := VStr "Ann" ]}.

(** * Proofs *)

#[local] Arguments contains : simpl never.
#[local] Arguments replace_char : simpl never.
#[local] Arguments os_path_join : simpl never.
#[local] Arguments truthy : simpl never.
#[local] Arguments String.append : simpl never.

(** Symbolic execution of [apply_to_job]: follow the evaluation order,
    splitting on the next thing the result depends on. *)
Ltac unfold_apply_in H :=
  unfold apply_to_job, try_except, store_get, quota_gate, browse_and_apply,
    with_playwright, screenshot_path, fill_greenhouse, commit_counters,
    store_update, py_le_zero, py_add_one, py_max0_sub_one, py_underscored,
    bind, ret, raise, sys_exit, call, log in H.

Ltac head_scrutinee t :=
  lazymatch t with
  | match ?x with _ => _ end => head_scrutinee x
  | (match ?x with _ => _ end) _ => head_scrutinee x
  | _ => t
  end.

Ltac exec_in H :=
  repeat (cbn [store trace fst snd] in H;
    lazymatch type of H with
    | match ?x with _ => _ end = _ =>
        let s := head_scrutinee x in destruct s eqn:?
    end);
  cbn [store trace fst snd merge_fields fold_left] in H;
  rewrite <- ?app_assoc in H;
  injection H as <- <-.

Ltac run_apply E j ud w :=
  let r := fresh "r" in
  let w' := fresh "w'" in
  let H := fresh "Hrun" in
  unfold outcome_of, world_after, events_of in *;
  destruct (apply_to_job E j ud w) as [r w'] eqn:H;
  destruct w as [st tr];
  cbn [store trace] in *;
  unfold_apply_in H; exec_in H;
  cbn [store trace fst snd] in *.

Ltac oracle_ok Hall :=
  try match goal with
    | H : fails _ _ = Some _ |- _ => rewrite Hall in H; discriminate H
    end.

Ltac in_cases H :=
  cbn [In] in H;
  repeat (destruct H as [H | H]; [try discriminate H |]);
  try contradiction.

Ltac leb_facts :=
  repeat match goal with
    | H : (_ <=? _) = false |- _ => apply Z.leb_gt in H
    | H : (_ <=? _) = true |- _ => apply Z.leb_le in H
    end.

(** Symbolic execution of the command-line functions, whose result is a
    value. *)
Ltac unfold_cli_in H :=
  unfold sign_in, get_user_inputs, save_user_data, authenticate, check_password, copy_file,
    store_get, store_update, store_set, bind, ret, raise, sys_exit, call, log in H.

Ltac exec_value_in H :=
  repeat (cbn [store trace fst snd ui_email ui_job_title ui_location ui_first_name
               ui_last_name ui_phone ui_password_hash ui_resume_path ui_profile_photo
               ui_preferred_salary ui_num_jobs] in H;
    lazymatch type of H with
    | match ?x with _ => _ end = _ =>
        let s := head_scrutinee x in destruct s eqn:?
    | (match ?x with _ => _ end) _ = _ =>
        let s := head_scrutinee x in destruct s eqn:?
    end);
  cbn [store trace fst snd merge_fields fold_left] in H;
  rewrite <- ?app_assoc in H;
  first [discriminate H | simplify_eq].

Ltac source_ok Hsrc :=
  try match goal with
    | H : cli_open_source _ _ = Some _ |- _ => rewrite Hsrc in H; discriminate H
    end.

Lemma new_events_app st st' tr evs :
  new_events (World st tr) (World st' (tr ++ evs)) = evs.
Proof. unfold new_events; cbn. apply drop_app_length. Qed.

Lemma new_events_ext w w' evs :
  trace w' = trace w ++ evs -> new_events w w' = evs.
Proof. intros H. unfold new_events. rewrite H. apply drop_app_length. Qed.

Lemma replay_app s evs1 evs2 :
  replay s (evs1 ++ evs2) =
  match replay s evs1 with
  | Some s' => replay s' evs2
  | None => None
  end.
Proof.
  revert s. induction evs1 as [|ev evs1 IH]; intros s; cbn; [reflexivity|].
  destruct (session_step s ev); [apply IH | reflexivity].
Qed.

(** ** One posting *)

(** A call only appends to the trace, and what it appends is a closed
    session: started at most once and stopped if started. *)
Lemma apply_to_job_trace E j ud w :
  exists evs,
    trace (world_after (apply_to_job E j ud) w) = trace w ++ evs
    /\ replay NoSession evs = Some NoSession.
Proof.
  run_apply E j ud w.
  all: eexists; split; [reflexivity | reflexivity].
Qed.

(** Nothing but [SystemExit] escapes the [try]. *)
Lemma apply_to_job_never_raises E j ud w e :
  outcome_of (apply_to_job E j ud) w <> Raise e.
Proof.
  run_apply E j ud w.
  all: discriminate.
Qed.

Lemma int_field_dict_get st email d k n :
  st !! email = Some d ->
  dict_get d k (VInt 0) = VInt n ->
  int_field st email k = n.
Proof.
  unfold int_field, dict_get. intros -> H.
  destruct (d !! k) as [v|]; simplify_eq; reflexivity.
Qed.

Lemma int_field_committed st email d x y :
  int_field
    (<[email := <["free_uses_left" := VInt x]> (<["application_count" := VInt y]> d)]> st)
    email "free_uses_left" = x
  /\ int_field
    (<[email := <["free_uses_left" := VInt x]> (<["application_count" := VInt y]> d)]> st)
    email "application_count" = y.
Proof.
  unfold int_field. rewrite lookup_insert_eq.
  rewrite lookup_insert_eq, lookup_insert_ne by discriminate.
  rewrite lookup_insert_eq. done.
Qed.

(** What one call does to the caller's counters. *)
Lemma apply_to_job_counters E j ud w :
  let r := outcome_of (apply_to_job E j ud) w in
  let w' := world_after (apply_to_job E j ud) w in
  (r = Ret Success ->
     1 <= free_uses_left w (ud_email ud)
     /\ free_uses_left w' (ud_email ud) = free_uses_left w (ud_email ud) - 1
     /\ application_count w' (ud_email ud) = application_count w (ud_email ud) + 1)
  /\ (r <> Ret Success -> store w' = store w).
Proof.
  cbv zeta.
  run_apply E j ud w.
  all: split; [ try discriminate | try reflexivity; try (intros HH; exfalso; apply HH; reflexivity)].
  all: intros _; simplify_eq; leb_facts.
  all: unfold free_uses_left, application_count; cbn [store].
  all: match goal with
       | Hs : _ !! _ = Some ?g,
         Hf : dict_get ?g "free_uses_left" _ = VInt ?n,
         Ha : dict_get ?g "application_count" _ = VInt ?a |- _ =>
           rewrite (int_field_dict_get _ _ _ _ _ Hs Hf),
                   (int_field_dict_get _ _ _ _ _ Hs Ha)
       end.
  all: match goal with
       | |- context [int_field (<[?e := <[_ := VInt ?x]> (<[_ := VInt ?y]> ?d)]> ?s)] =>
           destruct (int_field_committed s e d x y) as [-> ->]
       end.
  all: lia.
Qed.

(** [SystemExit] leaves a call exactly when the quota gate fires: the
    document was read and its [free_uses_left] (0 when missing) is an
    integer not above 0. Nothing else has happened by then. *)
Lemma apply_to_job_exit E j ud w :
  outcome_of (apply_to_job E j ud) w = SysExit ->
  (exists d n,
     store w !! ud_email ud = Some d
     /\ dict_get d "free_uses_left" (VInt 0) = VInt n /\ n <= 0)
  /\ world_after (apply_to_job E j ud) w = log (Done (StoreGet (ud_email ud))) w.
Proof.
  run_apply E j ud w.
  all: try discriminate.
  all: intros _; simplify_eq; leb_facts.
  all: split; [eauto 6 | reflexivity].
Qed.

Lemma link_ok url :
  contains "http" url = true ->
  negb (truthy (Some url)) || negb (contains "http" url) = false.
Proof. intros H. rewrite H. destruct url; [discriminate H | reflexivity]. Qed.

(** The first lines of [apply_to_job], up to the quota gate. *)
Lemma apply_to_job_gate_exit E j ud w d n :
  fails E (StoreGet (ud_email ud)) = None ->
  store w !! ud_email ud = Some d ->
  dict_get d "free_uses_left" (VInt 0) = VInt n ->
  n <= 0 ->
  apply_to_job E j ud w = (SysExit, log (Done (StoreGet (ud_email ud))) w).
Proof.
  intros Hget Hd Hf Hn.
  unfold apply_to_job, try_except, store_get, quota_gate, py_le_zero,
    bind, call, ret, sys_exit.
  rewrite Hget. cbn [store log]. rewrite Hd, Hf.
  apply Z.leb_le in Hn. rewrite Hn. reflexivity.
Qed.

Lemma success_or_not (r : res outcome) : r = Ret Success \/ r <> Ret Success.
Proof. destruct r as [[| |e]| e |]; (by left) || (by right). Qed.

Lemma replace_char_get a b s :
  forall i,
    String.get i (replace_char a b s)
    = (fun c => if Ascii.eqb c a then b else c) <$> String.get i s.
Proof.
  induction s as [|c s IH]; intros i; [reflexivity |].
  destruct i as [|i]; [reflexivity | apply IH].
Qed.

(** ** The batch *)

Lemma count_success_bounds sts :
  0 <= count_success sts <= Z.of_nat (length sts).
Proof.
  induction sts as [|[| |e] sts IH]; cbn [count_success length]; lia.
Qed.

Lemma zip_with_log_lookup jobs sts k j :
  length sts = length jobs ->
  jobs !! k = Some j ->
  exists st, sts !! k = Some st
             /\ zip_with log_line jobs sts !! k = Some (log_line j st).
Proof.
  intros Hlen Hj.
  destruct (lookup_lt_is_Some_2 sts k) as [st Hst].
  { rewrite Hlen. eapply lookup_lt_Some; eauto. }
  exists st. split; [exact Hst |].
  rewrite lookup_zip_with, Hj. cbn. rewrite Hst. reflexivity.
Qed.

Create HintDb batch.
#[global] Hint Constructors batch_run : batch.

Section Batch.

Variable E : nat -> env.
Variable ud : user_data.

Lemma submit_loop_cons i j rest logs w :
  submit_loop E i (j :: rest) ud logs w =
  match apply_to_job (E i) j ud w with
  | (Ret status, w') => submit_loop E (S i) rest ud (logs ++ [log_line j status]) w'
  | (Raise e, w') => (Raise e, w')
  | (SysExit, w') => (SysExit, w')
  end.
Proof. reflexivity. Qed.

(** The loop either returns the log of a complete run, or is cut short
    by the [SystemExit] of one posting after a run of the postings
    before it. *)
Lemma submit_loop_spec jobs :
  forall i logs w,
    match submit_loop E i jobs ud logs w with
    | (Ret logs', w') =>
        exists sts,
          batch_run E ud i jobs w sts w'
          /\ logs' = logs ++ zip_with log_line jobs sts
    | (Raise _, _) => False
    | (SysExit, w') =>
        exists pre j post sts w1,
          jobs = pre ++ j :: post
          /\ batch_run E ud i pre w sts w1
          /\ apply_to_job (E (i + length pre)%nat) j ud w1 = (SysExit, w')
    end.
Proof.
  induction jobs as [|j rest IH]; intros i logs w.
  - cbn. exists []. split; [auto with batch | by rewrite app_nil_r].
  - rewrite submit_loop_cons.
    destruct (apply_to_job (E i) j ud w) as [[st| e |] w1] eqn:Hstep.
    + specialize (IH (S i) (logs ++ [log_line j st]) w1).
      destruct (submit_loop E (S i) rest ud (logs ++ [log_line j st]) w1)
        as [[logs'| e |] w'].
      * destruct IH as (sts & Hrun & ->).
        exists (st :: sts). split; [eauto with batch |].
        cbn. by rewrite <- app_assoc.
      * exact IH.
      * destruct IH as (pre & j' & post & sts & w2 & -> & Hrun & Hexit).
        exists (j :: pre), j', post, (st :: sts), w2.
        split; [reflexivity |]. split; [eauto with batch |].
        cbn [length]. by rewrite Nat.add_succ_r.
    + pose proof (apply_to_job_never_raises (E i) j ud w e) as Hne.
      unfold outcome_of in Hne. rewrite Hstep in Hne. by apply Hne.
    + exists [], j, rest, [], w. split; [reflexivity |].
      split; [auto with batch |]. cbn [length]. by rewrite Nat.add_0_r.
Qed.

Lemma batch_run_length i jobs w sts w' :
  batch_run E ud i jobs w sts w' -> length sts = length jobs.
Proof. induction 1; cbn; congruence. Qed.

(** Counters along a run: one unit and one application per [Success]. *)
Lemma batch_run_counters i jobs w sts w' :
  batch_run E ud i jobs w sts w' ->
  0 <= free_uses_left w (ud_email ud) ->
  count_success sts <= free_uses_left w (ud_email ud)
  /\ free_uses_left w' (ud_email ud) = free_uses_left w (ud_email ud) - count_success sts
  /\ application_count w' (ud_email ud) = application_count w (ud_email ud) + count_success sts.
Proof.
  induction 1 as [i w | i j rest w st w1 sts w' Hstep Hrun IH]; intros Hfree.
  - cbn. lia.
  - pose proof (apply_to_job_counters (E i) j ud w) as [Hs Hn].
    unfold outcome_of, world_after in Hs, Hn. rewrite Hstep in Hs, Hn.
    cbn [fst snd] in Hs, Hn.
    destruct st as [| | e].
    + destruct Hs as (H1 & H2 & H3); [reflexivity |].
      destruct IH as (I1 & I2 & I3); [lia |].
      cbn [count_success]. lia.
    + assert (Hsame : store w1 = store w) by (apply Hn; discriminate).
      unfold free_uses_left, application_count in *. rewrite Hsame in IH.
      destruct IH as (I1 & I2 & I3); [lia |].
      cbn [count_success]; lia.
    + assert (Hsame : store w1 = store w) by (apply Hn; discriminate).
      unfold free_uses_left, application_count in *. rewrite Hsame in IH.
      destruct IH as (I1 & I2 & I3); [lia |].
      cbn [count_success]; lia.
Qed.

Lemma batch_run_trace i jobs w sts w' :
  batch_run E ud i jobs w sts w' ->
  exists evs, trace w' = trace w ++ evs /\ replay NoSession evs = Some NoSession.
Proof.
  induction 1 as [i w | i j rest w st w1 sts w' Hstep Hrun IH].
  - exists []. by rewrite app_nil_r.
  - destruct (apply_to_job_trace (E i) j ud w) as (evs1 & Ht1 & Hr1).
    unfold world_after in Ht1. rewrite Hstep in Ht1. cbn [snd] in Ht1.
    destruct IH as (evs2 & Ht2 & Hr2).
    exists (evs1 ++ evs2). split.
    + by rewrite Ht2, Ht1, app_assoc.
    + by rewrite replay_app, Hr1.
Qed.

Lemma batch_run_store i jobs w sts w' :
  batch_run E ud i jobs w sts w' ->
  count_success sts = 0 ->
  store w' = store w.
Proof.
  induction 1 as [i w | i j rest w st w1 sts w' Hstep Hrun IH]; intros Hc.
  - reflexivity.
  - pose proof (count_success_bounds sts) as Hb.
    pose proof (apply_to_job_counters (E i) j ud w) as [_ Hn].
    unfold outcome_of, world_after in Hn. rewrite Hstep in Hn. cbn [fst snd] in Hn.
    destruct st as [| | e]; cbn [count_success] in Hc; [lia | |].
    all: rewrite IH by exact Hc; apply Hn; discriminate.
Qed.

(** With enough quota for every posting, or no document at all, no
    posting of the batch meets a closed gate. *)
Lemma submit_loop_completes i jobs logs w :
  Z.of_nat (length jobs) <= free_uses_left w (ud_email ud)
  \/ store w !! ud_email ud = None ->
  exists sts w',
    submit_loop E i jobs ud logs w = (Ret (logs ++ zip_with log_line jobs sts), w')
    /\ batch_run E ud i jobs w sts w'.
Proof.
  intros Hq.
  pose proof (submit_loop_spec jobs i logs w) as Hspec.
  destruct (submit_loop E i jobs ud logs w) as [[logs'| e |] w'].
  - destruct Hspec as (sts & Hrun & ->). eauto.
  - destruct Hspec.
  - exfalso.
    destruct Hspec as (pre & j & post & sts & w1 & -> & Hrun & Hexit).
    pose proof (apply_to_job_exit (E (i + length pre)%nat) j ud w1) as Hx.
    unfold outcome_of, world_after in Hx. rewrite Hexit in Hx.
    destruct Hx as [(d & n & Hd & Hf & Hn) _]; [reflexivity |].
    pose proof (int_field_dict_get _ _ _ _ _ Hd Hf) as Hfree1.
    pose proof (count_success_bounds sts) as Hb.
    pose proof (batch_run_length _ _ _ _ _ Hrun) as Hlen.
    destruct Hq as [Hq | Hnone].
    + rewrite length_app in Hq. cbn [length] in Hq.
      destruct (batch_run_counters _ _ _ _ _ Hrun) as (_ & H2 & _); [lia |].
      unfold free_uses_left in *. lia.
    + assert (Hfree0 : free_uses_left w (ud_email ud) = 0).
      { unfold free_uses_left, int_field. by rewrite Hnone. }
      destruct (batch_run_counters _ _ _ _ _ Hrun) as (H1 & _ & _); [lia |].
      assert (Hc : count_success sts = 0) by lia.
      rewrite (batch_run_store _ _ _ _ _ Hrun Hc) in Hd. congruence.
Qed.

End Batch.

(** ** The profile update of [/submit] *)

Lemma merge_fields_lookup_notin fields :
  forall d k, ~ In k (map fst fields) -> merge_fields fields d !! k = d !! k.
Proof.
  induction fields as [|[k0 v0] fields IH]; intros d k Hk; [reflexivity |].
  cbn in Hk. unfold merge_fields in *. cbn [fold_left fst snd].
  rewrite IH by tauto. apply lookup_insert_ne. tauto.
Qed.

Lemma merge_fields_lookup_in fields :
  forall d k v,
    List.NoDup (map fst fields) -> In (k, v) fields ->
    merge_fields fields d !! k = Some v.
Proof.
  induction fields as [|[k0 v0] fields IH]; intros d k v Hnd Hin; [destruct Hin |].
  cbn in Hnd. apply List.NoDup_cons_iff in Hnd as [Hnotin Hnd].
  unfold merge_fields in *. cbn [fold_left fst snd].
  destruct Hin as [Heq | Hin].
  - injection Heq as -> ->.
    pose proof (merge_fields_lookup_notin fields (<[k:=v]> d) k Hnotin) as H.
    unfold merge_fields in H. rewrite H. apply lookup_insert_eq.
  - by apply IH.
Qed.

Lemma update_keys_nodup : List.NoDup (request_keys ++ preserved_keys).
Proof.
  apply NoDup_ListNoDup. apply (bool_decide_unpack _). vm_compute. exact I.
Qed.

(** * The claims *)

(** C1, as amended: a page whose URL does not contain greenhouse.io gets
    no form filled in and nothing clicked; when the quota gate passes,
    the link contains http, title and company are strings, the stored
    application count is an integer (or missing) and every external
    call succeeds, the call still returns Success (screenshot taken) and
    commits the counters. *)
Theorem C1_unsupported_site_is_success E j ud w :
  contains "greenhouse.io" (page_url E) = false ->
  Forall (fun ev => is_form_op (event_op ev) = false)
    (events_of (apply_to_job E j ud) w)
  /\ (forall d f a url t c,
        (forall o, fails E o = None) ->
        store w !! ud_email ud = Some d ->
        d !! "free_uses_left" = Some (VInt f) -> 0 < f ->
        dict_get d "application_count" (VInt 0) = VInt a ->
        job_link j = Some url -> contains "http" url = true ->
        job_title j = Some t -> job_company j = Some c ->
        outcome_of (apply_to_job E j ud) w = Ret Success
        /\ store (world_after (apply_to_job E j ud) w) =
           <[ud_email ud :=
               <["free_uses_left" := VInt (f - 1)]>
                 (<["application_count" := VInt (a + 1)]> d)]> (store w)).
Proof.
  intros Hsite.
  run_apply E j ud w.
  all: try congruence.
  all: rewrite new_events_app.
  all: split; [repeat constructor |].
  all: intros d f a url t c Hall Hd Hf Hpos Ha Hl Hh Ht Hc.
  all: oracle_ok Hall.
  all: simplify_eq.
  all: try (rewrite (link_ok _ Hh) in *; discriminate).
  all: unfold dict_get in *; rewrite ?Hf in *; simplify_eq; leb_facts; try lia; try congruence.
  all: split; [reflexivity |].
  all: rewrite Z.max_r by lia; congruence.
Qed.

Lemma C1_unsupported_site_is_success_witness :
  outcome_of (apply_to_job (all_ok other_url) other_job ann) (ann_world 5 0) = Ret Success
  /\ store (world_after (apply_to_job (all_ok other_url) other_job ann) (ann_world 5 0)) =
     <["ann@example.com" :=
         <["free_uses_left" := VInt (5 - 1)]>
           (<["application_count" := VInt (0 + 1)]> (ann_doc 5 0))]>
       (store (ann_world 5 0)).
Proof.
  apply (proj2 (C1_unsupported_site_is_success (all_ok other_url) other_job ann
                  (ann_world 5 0) eq_refl)
           (ann_doc 5 0) 5 0 other_url "Line Cook" "Bistro 9");
    first [reflexivity | lia | intros; reflexivity].
Defined.

(** C1 as stated fails: a careers page that is not a Greenhouse page,
    for a user with five free uses, is reported as Success and the
    counters are committed. *)
Lemma C1_counterexample :
  contains "greenhouse.io" (page_url (all_ok other_url)) = false
  /\ outcome_of (apply_to_job (all_ok other_url) other_job ann) (ann_world 5 0) = Ret Success
  /\ free_uses_left (world_after (apply_to_job (all_ok other_url) other_job ann) (ann_world 5 0))
       "ann@example.com" = 4
  /\ application_count (world_after (apply_to_job (all_ok other_url) other_job ann) (ann_world 5 0))
       "ann@example.com" = 1.
Proof. vm_compute. repeat split. Qed.

(** C2, as amended: with a stored [free_uses_left] not above 0 (0 when
    the field is missing) and the profile read, [apply_to_job] returns
    no outcome at all: it raises [SystemExit] right after the read, so
    no browser session is opened and nothing is written; the batch stops
    at that posting and the postings after it are not processed. *)
Theorem C2_quota_exhausted_exits E j ud w d n :
  fails E (StoreGet (ud_email ud)) = None ->
  store w !! ud_email ud = Some d ->
  dict_get d "free_uses_left" (VInt 0) = VInt n ->
  n <= 0 ->
  apply_to_job E j ud w = (SysExit, log (Done (StoreGet (ud_email ud))) w)
  /\ (forall Es i rest logs,
        Es i = E ->
        submit_loop Es i (j :: rest) ud logs w
        = (SysExit, log (Done (StoreGet (ud_email ud))) w)).
Proof.
  intros Hget Hd Hf Hn.
  pose proof (apply_to_job_gate_exit E j ud w d n Hget Hd Hf Hn) as Hexit.
  split; [exact Hexit |].
  intros Es i rest logs HE. rewrite submit_loop_cons, HE, Hexit. reflexivity.
Qed.

Lemma C2_quota_exhausted_exits_witness :
  apply_to_job (all_ok greenhouse_url) greenhouse_job ann (ann_world 0 5)
  = (SysExit, log (Done (StoreGet "ann@example.com")) (ann_world 0 5)).
Proof.
  apply (proj1 (C2_quota_exhausted_exits (all_ok greenhouse_url) greenhouse_job ann
                  (ann_world 0 5) (ann_doc 0 5) 0
                  eq_refl eq_refl eq_refl (Z.le_refl 0))).
Defined.

(** C2 as stated fails: with no free uses left the call yields no
    Skipped outcome, and a batch of two postings ends in [SystemExit]
    at the first one. *)
Lemma C2_counterexample :
  free_uses_left (ann_world 0 5) "ann@example.com" = 0
  /\ outcome_of (apply_to_job (all_ok greenhouse_url) greenhouse_job ann) (ann_world 0 5)
     = SysExit
  /\ outcome_of
       (submit_loop (fun _ => all_ok greenhouse_url) 0 [greenhouse_job; other_job] ann [])
       (ann_world 0 5)
     = SysExit
  /\ events_of
       (submit_loop (fun _ => all_ok greenhouse_url) 0 [greenhouse_job; other_job] ann [])
       (ann_world 0 5)
     = [Done (StoreGet "ann@example.com")].
Proof. vm_compute. repeat split. Qed.

(** C3: starting from a non-negative [free_uses_left], one call leaves
    it non-negative, adds exactly 1 to [application_count] when it
    returns Success and nothing when it returns Failed or Skipped; over
    a batch the application count grows by the number of Success
    outcomes in the log and [free_uses_left] falls by the same number,
    floored at 0. The same holds for the postings processed before a
    batch is cut short. *)
Theorem C3_counters_follow_successes E ud w :
  0 <= free_uses_left w (ud_email ud) ->
  (forall i j,
     let r := outcome_of (apply_to_job (E i) j ud) w in
     let w' := world_after (apply_to_job (E i) j ud) w in
     0 <= free_uses_left w' (ud_email ud)
     /\ (r = Ret Success ->
           application_count w' (ud_email ud) = application_count w (ud_email ud) + 1
           /\ free_uses_left w' (ud_email ud)
              = Z.max 0 (free_uses_left w (ud_email ud) - 1))
     /\ (r <> Ret Success ->
           application_count w' (ud_email ud) = application_count w (ud_email ud)
           /\ free_uses_left w' (ud_email ud) = free_uses_left w (ud_email ud)))
  /\ (forall i jobs logs,
        match submit_loop E i jobs ud logs w with
        | (Ret logs', w') =>
            exists sts,
              batch_run E ud i jobs w sts w'
              /\ logs' = logs ++ zip_with log_line jobs sts
              /\ 0 <= free_uses_left w' (ud_email ud)
              /\ application_count w' (ud_email ud)
                 = application_count w (ud_email ud) + count_success sts
              /\ free_uses_left w' (ud_email ud)
                 = Z.max 0 (free_uses_left w (ud_email ud) - count_success sts)
        | (Raise _, _) => False
        | (SysExit, w') =>
            exists pre post sts w1,
              jobs = pre ++ post
              /\ batch_run E ud i pre w sts w1
              /\ store w' = store w1
              /\ 0 <= free_uses_left w' (ud_email ud)
              /\ application_count w' (ud_email ud)
                 = application_count w (ud_email ud) + count_success sts
              /\ free_uses_left w' (ud_email ud)
                 = Z.max 0 (free_uses_left w (ud_email ud) - count_success sts)
        end).
Proof.
  intros Hfree. split.
  - intros i j. cbv zeta.
    pose proof (apply_to_job_counters (E i) j ud w) as [Hs Hn].
    destruct (success_or_not (outcome_of (apply_to_job (E i) j ud) w)) as [Heq | Hne].
    + destruct (Hs Heq) as (H1 & H2 & H3).
      split; [lia |]. split; [intros _; lia | intros Hc; contradiction].
    + specialize (Hn Hne).
      unfold free_uses_left, application_count. rewrite Hn.
      split; [exact Hfree |]. split; [intros Hc; contradiction | done].
  - intros i jobs logs.
    pose proof (submit_loop_spec E ud jobs i logs w) as Hspec.
    destruct (submit_loop E i jobs ud logs w) as [[logs'| e |] w'].
    + destruct Hspec as (sts & Hrun & ->).
      destruct (batch_run_counters _ _ _ _ _ _ _ Hrun Hfree) as (H1 & H2 & H3).
      exists sts. repeat split; [exact Hrun | lia | lia | lia].
    + exact Hspec.
    + destruct Hspec as (pre & j & post & sts & w1 & -> & Hrun & Hexit).
      destruct (batch_run_counters _ _ _ _ _ _ _ Hrun Hfree) as (H1 & H2 & H3).
      pose proof (apply_to_job_exit (E (i + length pre)%nat) j ud w1) as Hx.
      unfold outcome_of, world_after in Hx. rewrite Hexit in Hx.
      destruct Hx as [_ Hw]; [reflexivity |]. cbn [snd] in Hw. subst w'.
      exists pre, (j :: post), sts, w1.
      unfold free_uses_left, application_count in *. cbn [store log].
      repeat split; [exact Hrun | lia | lia | lia].
Qed.

Lemma C3_counters_follow_successes_witness :
  exists sts,
    outcome_of
      (submit_loop (fun _ => all_ok greenhouse_url) 0
         [greenhouse_job; no_link_job; greenhouse_job] ann [])
      (ann_world 2 0)
    = Ret (zip_with log_line [greenhouse_job; no_link_job; greenhouse_job] sts)
    /\ application_count
         (world_after
            (submit_loop (fun _ => all_ok greenhouse_url) 0
               [greenhouse_job; no_link_job; greenhouse_job] ann [])
            (ann_world 2 0))
         "ann@example.com"
       = 0 + count_success sts
    /\ free_uses_left
         (world_after
            (submit_loop (fun _ => all_ok greenhouse_url) 0
               [greenhouse_job; no_link_job; greenhouse_job] ann [])
            (ann_world 2 0))
         "ann@example.com"
       = Z.max 0 (2 - count_success sts).
Proof.
  assert (Hfree : 0 <= free_uses_left (ann_world 2 0) (ud_email ann))
    by (vm_compute; discriminate).
  pose proof (proj2 (C3_counters_follow_successes (fun _ => all_ok greenhouse_url) ann
                       (ann_world 2 0) Hfree)
                0%nat [greenhouse_job; no_link_job; greenhouse_job] []) as H.
  unfold outcome_of, world_after.
  destruct (submit_loop (fun _ => all_ok greenhouse_url) 0
              [greenhouse_job; no_link_job; greenhouse_job] ann [] (ann_world 2 0))
    as [[logs'| e |] w'] eqn:Hloop.
  - destruct H as (sts & _ & Hlog & _ & Hac & Hfu).
    exists sts. cbn [fst snd]. rewrite Hlog. auto.
  - destruct H.
  - vm_compute in Hloop. discriminate Hloop.
Defined.

(** C4, as amended: a posting whose link is [None], empty or without
    the substring http is returned as Skipped (invalid link), with no
    browser session and no write, whenever the profile read succeeds and
    the quota gate is open (no document, or a positive stored
    [free_uses_left]). *)
Theorem C4_invalid_link_skipped E j ud w :
  invalid_link (job_link j) = true ->
  fails E (StoreGet (ud_email ud)) = None ->
  gate_open w (ud_email ud) ->
  apply_to_job E j ud w
  = (Ret SkippedInvalidLink, log (Done (StoreGet (ud_email ud))) w).
Proof.
  intros Hlink Hget Hgate.
  unfold apply_to_job, try_except, store_get, quota_gate, py_le_zero,
    bind, call, ret, sys_exit, dict_get.
  rewrite Hget. cbn [store log].
  destruct Hgate as [Hnone | (d & n & Hd & Hf & Hn)].
  - rewrite Hnone. unfold invalid_link in Hlink.
    destruct (job_link j) as [url|]; [rewrite Hlink |]; reflexivity.
  - rewrite Hd, Hf. apply Z.leb_gt in Hn. rewrite Hn.
    unfold invalid_link in Hlink.
    destruct (job_link j) as [url|]; [rewrite Hlink |]; reflexivity.
Qed.

Lemma C4_invalid_link_skipped_witness :
  apply_to_job (all_ok other_url) no_link_job ann (ann_world 3 0)
  = (Ret SkippedInvalidLink, log (Done (StoreGet "ann@example.com")) (ann_world 3 0)).
Proof.
  apply (C4_invalid_link_skipped (all_ok other_url) no_link_job ann (ann_world 3 0)).
  - reflexivity.
  - reflexivity.
  - right. exists (ann_doc 3 0), 3.
    split; [reflexivity | split; [reflexivity | lia]].
Defined.

(** C4 as stated fails twice: with no free uses left an empty link is
    not reported as Skipped (the call exits), and a link without an
    http scheme that contains http further on is browsed like any
    other. *)
Lemma C4_counterexample :
  (job_link no_link_job = Some ""
   /\ outcome_of (apply_to_job (all_ok other_url) no_link_job ann) (ann_world 0 0) = SysExit)
  /\ (has_http_scheme "ftp://files.example.com/http-jobs" = false
      /\ outcome_of
           (apply_to_job (all_ok other_url)
              (Job (Some "Clerk") (Some "Shop") (Some "ftp://files.example.com/http-jobs"))
              ann)
           (ann_world 3 0)
         = Ret Success).
Proof. vm_compute. repeat split. Qed.

(** C5, as amended: the batch runner never raises an exception; it
    processes the postings one after the other in the given order and
    goes on after Failed and Skipped outcomes. When it reaches the end
    it returns the log whose k-th entry is the line of the k-th posting
    with that posting's outcome, also when nothing succeeded. It does
    not reach the end when a posting starts with the user's stored
    [free_uses_left] not above 0: that posting's [SystemExit] ends the
    batch without a log. A stored [free_uses_left] of at least the
    number of postings, or no document, is enough to reach the end.
    The handler wraps the log of a batch that reached the end in a
    response of status success. *)
Theorem C5_batch_log_in_order E ud i jobs logs w :
  match submit_loop E i jobs ud logs w with
  | (Ret logs', w') =>
      exists sts,
        batch_run E ud i jobs w sts w'
        /\ logs' = logs ++ zip_with log_line jobs sts
        /\ (forall k j, jobs !! k = Some j ->
              exists st, sts !! k = Some st
                         /\ logs' !! (length logs + k)%nat = Some (log_line j st))
  | (Raise _, _) => False
  | (SysExit, w') =>
      exists pre j post sts w1 d n,
        jobs = pre ++ j :: post
        /\ batch_run E ud i pre w sts w1
        /\ store w1 !! ud_email ud = Some d
        /\ dict_get d "free_uses_left" (VInt 0) = VInt n /\ n <= 0
        /\ w' = log (Done (StoreGet (ud_email ud))) w1
  end
  /\ (Z.of_nat (length jobs) <= free_uses_left w (ud_email ud)
      \/ store w !! ud_email ud = None ->
      exists logs', outcome_of (submit_loop E i jobs ud logs) w = Ret logs'
                    /\ length logs' = (length logs + length jobs)%nat)
  /\ (forall S job_title location num_jobs,
        sv_serp_key S = true ->
        outcome_of (auto_apply S job_title location num_jobs ud) w
        = match outcome_of
                  (submit_loop (sv_jobs_env S) 0
                     (found_jobs S job_title location num_jobs) ud []) w with
          | Ret logs' => Ret (JsonSuccess logs')
          | Raise e => Raise e
          | SysExit => SysExit
          end).
Proof.
  split; [| split].
  3: { intros S job_title location num_jobs Hkey.
       unfold outcome_of, auto_apply, fetch_jobs, bind, ret. rewrite Hkey.
       destruct (submit_loop (sv_jobs_env S) 0
                   (found_jobs S job_title location num_jobs) ud [] w)
         as [[logs'| e |] w']; reflexivity. }
  - pose proof (submit_loop_spec E ud jobs i logs w) as Hspec.
    destruct (submit_loop E i jobs ud logs w) as [[logs'| e |] w'].
    + destruct Hspec as (sts & Hrun & ->).
      exists sts. split; [exact Hrun |]. split; [reflexivity |].
      intros k j Hj.
      destruct (zip_with_log_lookup jobs sts k j) as (st & Hst & Hz);
        [by eapply batch_run_length | exact Hj |].
      exists st. split; [exact Hst |].
      rewrite lookup_app_r by lia.
      replace (length logs + k - length logs)%nat with k by lia. exact Hz.
    + exact Hspec.
    + destruct Hspec as (pre & j & post & sts & w1 & -> & Hrun & Hexit).
      pose proof (apply_to_job_exit (E (i + length pre)%nat) j ud w1) as Hx.
      unfold outcome_of, world_after in Hx. rewrite Hexit in Hx.
      destruct Hx as [(d & n & Hd & Hf & Hn) Hw]; [reflexivity |].
      exists pre, j, post, sts, w1, d, n. eauto 10.
  - intros Hq.
    destruct (submit_loop_completes E ud i jobs logs w Hq) as (sts & w' & Hloop & Hrun).
    unfold outcome_of. rewrite Hloop. eexists. split; [reflexivity |].
    rewrite length_app, length_zip_with.
    rewrite (batch_run_length _ _ _ _ _ _ _ Hrun). lia.
Qed.

Lemma C5_batch_log_in_order_witness :
  exists logs',
    outcome_of
      (submit_loop (fun _ => all_ok other_url) 0 [no_link_job; no_link_job] ann [])
      (ann_world 2 0)
    = Ret logs'
    /\ length logs' = (length (@nil string) + length [no_link_job; no_link_job])%nat.
Proof.
  apply (proj1 (proj2 (C5_batch_log_in_order (fun _ => all_ok other_url) ann 0
                         [no_link_job; no_link_job] [] (ann_world 2 0)))).
  left. vm_compute. discriminate.
Defined.

(** C5 as stated fails: a user with one free use and two postings that
    both go through gets no response at all. The first posting
    succeeds, the second starts with no free use left and exits. *)
Lemma C5_counterexample :
  outcome_of
    (submit_loop (fun _ => all_ok greenhouse_url) 0 [greenhouse_job; greenhouse_job] ann [])
    (ann_world 1 0)
  = SysExit
  /\ application_count
       (world_after
          (submit_loop (fun _ => all_ok greenhouse_url) 0 [greenhouse_job; greenhouse_job] ann [])
          (ann_world 1 0))
       "ann@example.com" = 1.
Proof. vm_compute. repeat split. Qed.

(** C6, as amended: a call tries to write the counters at most once;
    when that write raises, after the form was submitted, it was the
    only attempt (nothing is retried), the call returns Failed with the
    error of the write and the stored counters are left as they
    were. *)
Theorem C6_commit_failure_is_failed E j ud w :
  (update_attempts (events_of (apply_to_job E j ud) w) <= 1)%nat
  /\ forall fields e,
       In (Raised (StoreUpdate (ud_email ud) fields) e)
          (events_of (apply_to_job E j ud) w) ->
       outcome_of (apply_to_job E j ud) w = Ret (Failed e)
       /\ update_attempts (events_of (apply_to_job E j ud) w) = 1%nat
       /\ store (world_after (apply_to_job E j ud) w) = store w.
Proof.
  run_apply E j ud w.
  all: rewrite new_events_app.
  all: split; [cbn; lia |].
  all: intros fields' e' Hin'; in_cases Hin'.
  all: simplify_eq; repeat split; reflexivity.
Qed.

Lemma C6_commit_failure_is_failed_witness :
  outcome_of
    (apply_to_job (failing is_update_op unavailable_error greenhouse_url) greenhouse_job ann)
    (ann_world 5 0)
  = Ret (Failed unavailable_error)
  /\ update_attempts
       (events_of
          (apply_to_job (failing is_update_op unavailable_error greenhouse_url)
             greenhouse_job ann)
          (ann_world 5 0)) = 1%nat
  /\ store (world_after
              (apply_to_job (failing is_update_op unavailable_error greenhouse_url)
                 greenhouse_job ann)
              (ann_world 5 0))
     = store (ann_world 5 0).
Proof.
  apply (proj2 (C6_commit_failure_is_failed
                  (failing is_update_op unavailable_error greenhouse_url)
                  greenhouse_job ann (ann_world 5 0))
           [("application_count", VInt 1); ("free_uses_left", VInt 4)]).
  vm_compute. repeat (first [left; reflexivity | right]).
Defined.

(** C6 as stated fails: the form is submitted, the one write of the
    counters raises, nothing is retried and the call is reported
    Failed. *)
Lemma C6_counterexample :
  In (Done (Click "button[type='submit']"))
     (events_of
        (apply_to_job (failing is_update_op unavailable_error greenhouse_url)
           greenhouse_job ann)
        (ann_world 5 0))
  /\ update_attempts
       (events_of
          (apply_to_job (failing is_update_op unavailable_error greenhouse_url)
             greenhouse_job ann)
          (ann_world 5 0)) = 1%nat
  /\ outcome_of
       (apply_to_job (failing is_update_op unavailable_error greenhouse_url)
          greenhouse_job ann)
       (ann_world 5 0)
     = Ret (Failed unavailable_error)
  /\ status_text (Failed unavailable_error)
     = "Failed (503 The service is currently unavailable.)".
Proof.
  vm_compute. split; [| repeat split].
  repeat (first [left; reflexivity | right]).
Qed.

(** C7, as amended: the screenshot is taken before any form field is
    filled in and before the click on submit, not after it. Its path is a function of (title, company): each with its
    spaces, and nothing but its spaces, replaced by an underscore,
    joined by an underscore under the screenshot directory. A capture
    that raises is fatal for the posting: the call returns Failed with
    that error, fills in no form and writes no counter. *)
Theorem C7_screenshot_before_form_and_fatal E j ud w :
  screenshot_first (events_of (apply_to_job E j ud) w) = true
  /\ (forall ev,
        In ev (events_of (apply_to_job E j ud) w) ->
        is_screenshot_op (event_op ev) = true ->
        exists t c,
          job_title j = Some t /\ job_company j = Some c
          /\ event_op ev
             = Screenshot
                 (os_path_join SCREENSHOT_DIR
                    (replace_char " " "_" t +:+ "_" +:+ replace_char " " "_" c +:+ ".png")))
  /\ (forall s i,
        String.get i (replace_char " " "_" s)
        = (fun c => if Ascii.eqb c " " then "_"%char else c) <$> String.get i s)
  /\ (forall p e,
        In (Raised (Screenshot p) e) (events_of (apply_to_job E j ud) w) ->
        outcome_of (apply_to_job E j ud) w = Ret (Failed e)
        /\ store (world_after (apply_to_job E j ud) w) = store w
        /\ Forall (fun ev => is_form_op (event_op ev) = false)
             (events_of (apply_to_job E j ud) w)).
Proof.
  run_apply E j ud w.
  all: rewrite new_events_app.
  all: split; [reflexivity |].
  all: split; [intros ev' Hin' Hshot'; in_cases Hin'; subst ev';
               try discriminate Hshot'; eauto |].
  all: split; [intros; apply replace_char_get |].
  all: intros p' e' Hin'; in_cases Hin'.
  all: simplify_eq; split; [reflexivity |]; split; [reflexivity |].
  all: repeat constructor.
Qed.

Lemma C7_screenshot_before_form_and_fatal_witness :
  outcome_of
    (apply_to_job (failing is_screenshot_op timeout_error greenhouse_url) greenhouse_job ann)
    (ann_world 5 0)
  = Ret (Failed timeout_error).
Proof.
  refine (proj1 (proj2 (proj2 (proj2 (C7_screenshot_before_form_and_fatal
                  (failing is_screenshot_op timeout_error greenhouse_url)
                  greenhouse_job ann (ann_world 5 0))))
           "debug/screenshots/Cashier_Acme_Corp.png" timeout_error _)).
  vm_compute. repeat (first [left; reflexivity | right]).
Defined.

(** C7 as stated fails: the same posting succeeds when the capture
    works and is Failed when it raises; the capture comes before the
    form is filled in; and the name keeps every character that is not a
    space. *)
Lemma C7_counterexample :
  (outcome_of (apply_to_job (all_ok greenhouse_url) greenhouse_job ann) (ann_world 5 0)
   = Ret Success
   /\ outcome_of
        (apply_to_job (failing is_screenshot_op timeout_error greenhouse_url)
           greenhouse_job ann)
        (ann_world 5 0)
      = Ret (Failed timeout_error))
  /\ events_of (apply_to_job (all_ok greenhouse_url) greenhouse_job ann) (ann_world 5 0)
     = [ Done (StoreGet "ann@example.com");
         Done PlaywrightStart; Done Launch; Done NewPage;
         Done (Goto greenhouse_url);
         Done (Screenshot "debug/screenshots/Cashier_Acme_Corp.png");
         Done (Fill "input[name='first_name']" (Some "Ann"));
         Done (Fill "input[name='last_name']" (Some "Lee"));
         Done (Fill "input[type='email']" (Some "ann@example.com"));
         Done (Fill "input[type='tel']" (Some "555-0100"));
         Done (SetInputFiles "input[type='file']" "uploads/resume.pdf");
         Done (Click "button[type='submit']");
         Done BrowserClose;
         Done (StoreUpdate "ann@example.com"
                 [("application_count", VInt 1); ("free_uses_left", VInt 4)]);
         Done PlaywrightStop ]
  /\ outcome_of (screenshot_path (Job (Some "C++ Dev (m/f)") (Some "R&D Labs") None))
       empty_world
     = Ret "debug/screenshots/C++_Dev_(m/f)_R&D_Labs.png".
Proof. vm_compute. repeat split. Qed.

(** C8: the events of one call, however it ends (an outcome or
    [SystemExit]), form a closed session: a driver is started only when
    none is running and is stopped, with its browser, before the call
    is over; the events of a whole batch do too, so no session is left
    open and none spans two postings. *)
Theorem C8_session_closed_on_every_path E ud w :
  (forall i j,
     replay NoSession (events_of (apply_to_job (E i) j ud) w) = Some NoSession)
  /\ (forall i jobs logs,
        replay NoSession (events_of (submit_loop E i jobs ud logs) w) = Some NoSession).
Proof.
  split.
  - intros i j.
    destruct (apply_to_job_trace (E i) j ud w) as (evs & Ht & Hr).
    unfold events_of. unfold world_after in Ht.
    by rewrite (new_events_ext _ _ _ Ht).
  - intros i jobs logs. unfold events_of.
    pose proof (submit_loop_spec E ud jobs i logs w) as Hspec.
    destruct (submit_loop E i jobs ud logs w) as [[logs'| e |] w']; cbn [snd].
    + destruct Hspec as (sts & Hrun & _).
      destruct (batch_run_trace _ _ _ _ _ _ _ Hrun) as (evs & Ht & Hr).
      by rewrite (new_events_ext _ _ _ Ht).
    + destruct Hspec.
    + destruct Hspec as (pre & j & post & sts & w1 & _ & Hrun & Hexit).
      destruct (batch_run_trace _ _ _ _ _ _ _ Hrun) as (evs1 & Ht1 & Hr1).
      destruct (apply_to_job_trace (E (i + length pre)%nat) j ud w1) as (evs2 & Ht2 & Hr2).
      unfold world_after in Ht2. rewrite Hexit in Ht2. cbn [snd] in Ht2.
      rewrite (new_events_ext w w' (evs1 ++ evs2)).
      * by rewrite replay_app, Hr1.
      * by rewrite Ht2, Ht1, app_assoc.
Qed.

(** C9: when the user has no document, the quota gate is not
    consulted, so the call never exits; it never returns Success and
    never tries to write a counter; once the browser has been closed
    (the form, if any, filled in and submitted) reading the unbound
    [counts] makes the outcome Failed. *)
Theorem C9_missing_document_never_commits E j ud w :
  store w !! ud_email ud = None ->
  outcome_of (apply_to_job E j ud) w <> SysExit
  /\ outcome_of (apply_to_job E j ud) w <> Ret Success
  /\ store (world_after (apply_to_job E j ud) w) = store w
  /\ update_attempts (events_of (apply_to_job E j ud) w) = 0%nat
  /\ (In (Done BrowserClose) (events_of (apply_to_job E j ud) w) ->
      outcome_of (apply_to_job E j ud) w = Ret (Failed counts_unbound_error)).
Proof.
  intros Hnone.
  run_apply E j ud w.
  all: try congruence.
  all: rewrite new_events_app.
  all: split; [discriminate |]; split; [discriminate |].
  all: split; [reflexivity |]; split; [reflexivity |].
  all: intros Hin'; in_cases Hin'; reflexivity.
Qed.

Lemma C9_missing_document_never_commits_witness :
  In (Done (Click "button[type='submit']"))
     (events_of (apply_to_job (all_ok greenhouse_url) greenhouse_job ann) empty_world)
  /\ outcome_of (apply_to_job (all_ok greenhouse_url) greenhouse_job ann) empty_world
     = Ret (Failed counts_unbound_error).
Proof.
  split.
  - vm_compute. repeat (first [left; reflexivity | right]).
  - apply (proj2 (proj2 (proj2 (proj2 (C9_missing_document_never_commits
             (all_ok greenhouse_url) greenhouse_job ann empty_world eq_refl))))).
    vm_compute. repeat (first [left; reflexivity | right]).
Defined.

(** C10, as amended: for an existing user the profile update of
    [/submit] (before the auto-apply batch runs) writes back, for
    [free_uses_left], [application_count], [plan_id],
    [subscription_status] and [created_at], the value the stored
    document holds, so each of them that is stored is left unchanged;
    one that is missing is created with its default (5, 0, free,
    active, the current time). The twelve fields of the request are
    overwritten, no other field of the document is touched, and no
    other user's document is. *)
Theorem C10_update_keeps_stored_account_fields
    E email old now jt loc fn ln ph hp sal rp pp n w :
  store w !! email = Some old ->
  fails E (StoreUpdate email
             (request_fields jt loc fn ln ph email hp sal rp pp n now
                ++ preserved_fields old now)) = None ->
  exists new,
    store (world_after
             (save_profile E email (Some old)
                (request_fields jt loc fn ln ph email hp sal rp pp n now) now) w)
      !! email = Some new
    /\ (forall k v, In k preserved_keys -> old !! k = Some v -> new !! k = Some v)
    /\ (new !! "free_uses_left" = Some (dict_get old "free_uses_left" (VInt 5))
        /\ new !! "application_count" = Some (dict_get old "application_count" (VInt 0))
        /\ new !! "plan_id" = Some (dict_get old "plan_id" (VStr "free"))
        /\ new !! "subscription_status"
           = Some (dict_get old "subscription_status" (VStr "active"))
        /\ new !! "created_at" = Some (dict_get old "created_at" (VStr now)))
    /\ (forall k v,
          In (k, v) (request_fields jt loc fn ln ph email hp sal rp pp n now) ->
          new !! k = Some v)
    /\ (forall k, ~ In k preserved_keys -> ~ In k request_keys -> new !! k = old !! k)
    /\ (forall other,
          other <> email ->
          store (world_after
                   (save_profile E email (Some old)
                      (request_fields jt loc fn ln ph email hp sal rp pp n now) now) w)
            !! other = store w !! other).
Proof.
  intros Hold Hok.
  set (fields := request_fields jt loc fn ln ph email hp sal rp pp n now) in *.
  assert (Hkeys : map fst (fields ++ preserved_fields old now)
                  = request_keys ++ preserved_keys) by reflexivity.
  assert (Hnd : List.NoDup (map fst (fields ++ preserved_fields old now))).
  { rewrite Hkeys. apply update_keys_nodup. }
  assert (Hkept : forall k v, In (k, v) (preserved_fields old now) ->
                    merge_fields (fields ++ preserved_fields old now) old !! k = Some v).
  { intros k v Hin. apply merge_fields_lookup_in; [exact Hnd |].
    apply in_or_app. by right. }
  unfold world_after, save_profile, store_update, bind, call.
  rewrite Hok. cbn [store log trace fst snd]. rewrite Hold. cbn [store snd].
  exists (merge_fields (fields ++ preserved_fields old now) old).
  split; [apply lookup_insert_eq |].
  split.
  { intros k v Hk Hv.
    assert (Hd : forall default, dict_get old k default = v).
    { intros default. unfold dict_get. by rewrite Hv. }
    apply Hkept. unfold preserved_fields. cbn [In] in Hk |- *.
    destruct Hk as [<- | [<- | [<- | [<- | [<- | []]]]]]; rewrite Hd; tauto. }
  split.
  { repeat split; apply Hkept; cbn [preserved_fields In]; tauto. }
  split.
  { intros k v Hin. apply merge_fields_lookup_in; [exact Hnd |].
    apply in_or_app. by left. }
  split.
  { intros k Hp Hr. apply merge_fields_lookup_notin.
    rewrite Hkeys. intros Hin. apply in_app_or in Hin. tauto. }
  intros other Hne. by apply lookup_insert_ne.
Qed.

Lemma C10_update_keeps_stored_account_fields_witness :
  exists new,
    store (world_after
             (save_profile (all_ok "") "ann@example.com" (Some bare_doc)
                (request_fields (Some "Cashier") (Some "Austin") None None None
                   "ann@example.com" "$2b$12$pw" None None None 5 "2024-05-01T10:00:00")
                "2024-05-01T10:00:00")
             (World {[ "ann@example.com" := bare_doc ]} []))
      !! "ann@example.com" = Some new
    /\ new !! "free_uses_left" = Some (VInt 5)
    /\ new !! "application_count" = Some (VInt 2).
Proof.
  assert (Hold : store (World {[ "ann@example.com" := bare_doc ]} []) !! "ann@example.com"
                 = Some bare_doc) by (vm_compute; reflexivity).
  destruct (C10_update_keeps_stored_account_fields (all_ok "") "ann@example.com" bare_doc
              "2024-05-01T10:00:00" (Some "Cashier") (Some "Austin") None None None
              "$2b$12$pw" None None None 5
              (World {[ "ann@example.com" := bare_doc ]} []) Hold eq_refl)
    as (new & Hnew & Hkeep & _).
  exists new. split; [exact Hnew |].
  split; apply Hkeep; first [by vm_compute | cbn; tauto].
Defined.

(** C10 as stated fails: a stored document without [plan_id] and
    [created_at] has both after the request, and a request whose batch
    applies to one posting lowers [free_uses_left] and raises
    [application_count]. *)
Lemma C10_counterexample :
  (bare_doc !! "plan_id" = None
   /\ (store (world_after (submit (ann_submit_env []) ann_request)
                (World {[ "ann@example.com" := bare_doc ]} []))
         !! "ann@example.com") ≫= (.!! "plan_id")
      = Some (VStr "free")
   /\ (store (world_after (submit (ann_submit_env []) ann_request)
                (World {[ "ann@example.com" := bare_doc ]} []))
         !! "ann@example.com") ≫= (.!! "created_at")
      = Some (VStr "2024-05-01T10:00:00"))
  /\ (free_uses_left (ann_world 5 2) "ann@example.com" = 5
      /\ outcome_of (submit (ann_submit_env [greenhouse_raw]) ann_request) (ann_world 5 2)
         = Ret (JsonSuccess
                  ["Cashier at Acme Corp " +:+ en_dash +:+ " Success (screenshot taken)"])
      /\ free_uses_left
           (world_after (submit (ann_submit_env [greenhouse_raw]) ann_request) (ann_world 5 2))
           "ann@example.com" = 4
      /\ application_count
           (world_after (submit (ann_submit_env [greenhouse_raw]) ann_request) (ann_world 5 2))
           "ann@example.com" = 3).
Proof. vm_compute. repeat split. Qed.

(** * Further properties *)

(** ** [fetch_jobs] *)

Lemma py_take_nonneg {A} (limit : Z) (l : list A) :
  0 <= limit -> py_take limit l = take (Z.to_nat limit) l.
Proof. intros H. unfold py_take. apply Z.leb_le in H. by rewrite H. Qed.

Lemma found_jobs_cases S jt loc limit :
  found_jobs S jt loc limit = []
  \/ exists raws,
       sv_search S (fmt jt +:+ " in " +:+ fmt loc) = Some raws
       /\ Forall2 (fun raw j => job_of_raw raw = Some j)
            (py_take limit raws) (found_jobs S jt loc limit).
Proof.
  unfold found_jobs.
  destruct (sv_search S (fmt jt +:+ " in " +:+ fmt loc)) as [raws|]; [| by left].
  destruct (mapM job_of_raw (py_take limit raws)) as [jobs|] eqn:Hm; [| by left].
  right. exists raws. split; [reflexivity |]. cbn. by apply mapM_Some.
Qed.

Lemma job_of_raw_fields raw j :
  job_of_raw raw = Some j ->
  job_title j = raw_title raw /\ job_company j = raw_company raw
  /\ link_of raw = Some (job_link j).
Proof.
  unfold job_of_raw. destruct (link_of raw) as [l|]; [| discriminate].
  intros [= <-]. done.
Qed.

(** X1: with the API key present [fetch_jobs] never raises and touches
    neither the store nor the trace; for a limit that is not negative
    it returns at most [limit] postings, and the posting at position k
    is the search result at position k: same title, same company, and
    the link of its first apply option. *)
Theorem fetch_jobs_bounded_in_order S jt loc limit w :
  sv_serp_key S = true ->
  0 <= limit ->
  fetch_jobs S jt loc limit w = (Ret (found_jobs S jt loc limit), w)
  /\ (length (found_jobs S jt loc limit) <= Z.to_nat limit)%nat
  /\ (forall k j,
        found_jobs S jt loc limit !! k = Some j ->
        exists raws raw,
          sv_search S (fmt jt +:+ " in " +:+ fmt loc) = Some raws
          /\ raws !! k = Some raw
          /\ job_title j = raw_title raw /\ job_company j = raw_company raw
          /\ link_of raw = Some (job_link j)).
Proof.
  intros Hkey Hlim. split; [| split].
  - unfold fetch_jobs. by rewrite Hkey.
  - destruct (found_jobs_cases S jt loc limit) as [-> | (raws & _ & Hall)];
      [cbn; lia |].
    rewrite <- (Forall2_length _ _ _ Hall), py_take_nonneg, length_take by exact Hlim.
    lia.
  - intros k j Hk.
    destruct (found_jobs_cases S jt loc limit) as [Hnil | (raws & Hs & Hall)].
    { rewrite Hnil in Hk. discriminate Hk. }
    destruct (Forall2_lookup_r _ _ _ _ _ Hall Hk) as (raw & Hraw & Hj).
    rewrite py_take_nonneg in Hraw by exact Hlim.
    apply lookup_take_Some in Hraw as [Hraw _].
    exists raws, raw. split; [exact Hs |]. split; [exact Hraw |].
    by apply job_of_raw_fields.
Qed.

(** X2: the results are kept all or none: a failing search gives the empty
    list, and so does one kept result whose [apply_options] is an empty
    list, whatever the other results are; otherwise every one of the
    first [limit] results is returned. *)
Theorem fetch_jobs_all_or_nothing S jt loc limit :
  0 <= limit ->
  (sv_search S (fmt jt +:+ " in " +:+ fmt loc) = None ->
   found_jobs S jt loc limit = [])
  /\ (forall raws,
        sv_search S (fmt jt +:+ " in " +:+ fmt loc) = Some raws ->
        (forall k raw,
           (k < Z.to_nat limit)%nat -> raws !! k = Some raw ->
           raw_apply_options raw = Some [] ->
           found_jobs S jt loc limit = [])
        /\ ((forall k raw,
               (k < Z.to_nat limit)%nat -> raws !! k = Some raw ->
               raw_apply_options raw <> Some []) ->
            length (found_jobs S jt loc limit)
            = Nat.min (Z.to_nat limit) (length raws))).
Proof.
  intros Hlim. split.
  - intros Hs. unfold found_jobs. by rewrite Hs.
  - intros raws Hs. unfold found_jobs. rewrite Hs, py_take_nonneg by exact Hlim.
    split.
    + intros k raw Hk Hraw Hempty.
      destruct (mapM job_of_raw (take (Z.to_nat limit) raws)) as [jobs|] eqn:Hm;
        [| reflexivity].
      exfalso. apply mapM_Some in Hm.
      assert (Hraw' : take (Z.to_nat limit) raws !! k = Some raw).
      { apply lookup_take_Some. split; [exact Hraw | exact Hk]. }
      destruct (Forall2_lookup_l _ _ _ _ _ Hm Hraw') as (j & _ & Hj).
      unfold job_of_raw, link_of in Hj. rewrite Hempty in Hj. discriminate Hj.
    + intros Hgood.
      destruct (mapM job_of_raw (take (Z.to_nat limit) raws)) as [jobs|] eqn:Hm.
      * apply mapM_Some in Hm. cbn.
        rewrite <- (Forall2_length _ _ _ Hm), length_take. reflexivity.
      * exfalso. apply mapM_None in Hm. rewrite Exists_exists in Hm.
        destruct Hm as (raw & Hin & Hnone).
        apply list_elem_of_lookup in Hin as [k Hk].
        apply lookup_take_Some in Hk as [Hk Hlt].
        apply (Hgood k raw Hlt Hk).
        unfold job_of_raw, link_of in Hnone.
        destruct (raw_apply_options raw) as [[|[l|] opts]|]; done.
Qed.

Lemma fetch_jobs_bounded_in_order_witness :
  (length (found_jobs (ann_submit_env [greenhouse_raw; greenhouse_raw])
             (Some "Cashier") (Some "Austin") 1) <= Z.to_nat 1)%nat.
Proof.
  apply (proj1 (proj2 (fetch_jobs_bounded_in_order
                  (ann_submit_env [greenhouse_raw; greenhouse_raw])
                  (Some "Cashier") (Some "Austin") 1 empty_world eq_refl
                  ltac:(lia)))).
Defined.

Lemma fetch_jobs_all_or_nothing_witness :
  found_jobs (ann_submit_env [greenhouse_raw; RawJob (Some "Clerk") (Some "Shop") (Some [])])
    (Some "Cashier") (Some "Austin") 2
  = [].
Proof.
  apply (proj1 (proj2 (fetch_jobs_all_or_nothing
                  (ann_submit_env
                     [greenhouse_raw; RawJob (Some "Clerk") (Some "Shop") (Some [])])
                  (Some "Cashier") (Some "Austin") 2 ltac:(lia))
                 [greenhouse_raw; RawJob (Some "Clerk") (Some "Shop") (Some [])] eq_refl)
           1%nat (RawJob (Some "Clerk") (Some "Shop") (Some [])));
    [vm_compute; lia | reflexivity | reflexivity].
Defined.



(** ** More on [apply_to_job] *)

Lemma apply_to_job_invalid_link E j ud w :
  invalid_link (job_link j) = true ->
  fails E (StoreGet (ud_email ud)) = None ->
  gate_open w (ud_email ud) ->
  apply_to_job E j ud w
  = (Ret SkippedInvalidLink, log (Done (StoreGet (ud_email ud))) w).
Proof.
  intros Hlink Hget Hgate.
  unfold apply_to_job, try_except, store_get, quota_gate, py_le_zero,
    bind, call, ret, sys_exit, dict_get.
  rewrite Hget. cbn [store log]. unfold invalid_link in Hlink.
  destruct Hgate as [Hnone | (d & n & Hd & Hf & Hn)].
  - rewrite Hnone. destruct (job_link j) as [url|]; [rewrite Hlink |]; reflexivity.
  - rewrite Hd, Hf. apply Z.leb_gt in Hn. rewrite Hn.
    destruct (job_link j) as [url|]; [rewrite Hlink |]; reflexivity.
Qed.

(** X4: a search result without [apply_options], or whose first apply
    option has no link, becomes a posting with the link N/A, and
    [apply_to_job] returns Skipped (invalid link) for it without
    opening a browser, when the profile is read and the quota gate is
    open. *)
Theorem unlinked_result_is_skipped E raw j ud w :
  job_of_raw raw = Some j ->
  raw_apply_options raw = None
  \/ (exists rest, raw_apply_options raw = Some (None :: rest)) ->
  fails E (StoreGet (ud_email ud)) = None ->
  gate_open w (ud_email ud) ->
  job_link j = Some "N/A"
  /\ apply_to_job E j ud w
     = (Ret SkippedInvalidLink, log (Done (StoreGet (ud_email ud))) w).
Proof.
  intros Hj Hraw Hget Hgate.
  assert (Hlink : job_link j = Some "N/A").
  { apply job_of_raw_fields in Hj as (_ & _ & Hl). unfold link_of in Hl.
    destruct Hraw as [Hraw | [rest Hraw]]; rewrite Hraw in Hl; congruence. }
  split; [exact Hlink |].
  apply apply_to_job_invalid_link; [| exact Hget | exact Hgate].
  rewrite Hlink. reflexivity.
Qed.

Lemma unlinked_result_is_skipped_witness :
  apply_to_job (all_ok other_url) (Job (Some "Clerk") (Some "Shop") (Some "N/A")) ann
    (ann_world 3 0)
  = (Ret SkippedInvalidLink, log (Done (StoreGet "ann@example.com")) (ann_world 3 0)).
Proof.
  apply (proj2 (unlinked_result_is_skipped (all_ok other_url)
                  (RawJob (Some "Clerk") (Some "Shop") None)
                  (Job (Some "Clerk") (Some "Shop") (Some "N/A")) ann (ann_world 3 0)
                  eq_refl (or_introl eq_refl) eq_refl
                  (or_intror (ex_intro _ (ann_doc 3 0)
                     (ex_intro _ 3 (conj eq_refl (conj eq_refl (eq_refl : 0 < 3)))))))).
Defined.

Lemma counters_only_refl st email : counters_only st st email.
Proof. unfold counters_only. done. Qed.

Lemma counters_only_trans st1 st2 st3 email :
  counters_only st1 st2 email -> counters_only st2 st3 email ->
  counters_only st1 st3 email.
Proof.
  intros (A1 & B1 & C1) (A2 & B2 & C2). split; [| split].
  - intros other Hne. by rewrite A2, A1.
  - by rewrite B2, B1.
  - intros k H1 H2. by rewrite C2, C1.
Qed.

Lemma counters_only_commit st email d x y :
  st !! email = Some d ->
  counters_only st
    (<[email := <["free_uses_left" := x]> (<["application_count" := y]> d)]> st) email.
Proof.
  intros Hd. split; [| split].
  - intros other Hne. by apply lookup_insert_ne.
  - rewrite lookup_insert_eq, Hd. split; eauto.
  - intros k H1 H2. rewrite lookup_insert_eq, Hd. cbn.
    by rewrite !lookup_insert_ne by congruence.
Qed.

Lemma apply_to_job_counters_only E j ud w :
  counters_only (store w) (store (world_after (apply_to_job E j ud) w)) (ud_email ud).
Proof.
  run_apply E j ud w.
  all: try apply counters_only_refl.
  all: simplify_eq; by apply counters_only_commit.
Qed.

Lemma submit_loop_counters_only E ud jobs :
  forall w i logs,
    counters_only (store w) (store (world_after (submit_loop E i jobs ud logs) w))
      (ud_email ud).
Proof.
  induction jobs as [|j rest IH]; intros w i logs.
  - apply counters_only_refl.
  - unfold world_after. rewrite submit_loop_cons.
    pose proof (apply_to_job_counters_only (E i) j ud w) as Hstep.
    unfold world_after in Hstep.
    destruct (apply_to_job (E i) j ud w) as [[st| e |] w1]; cbn [snd] in *;
      [| exact Hstep | exact Hstep].
    eapply counters_only_trans; [exact Hstep |].
    apply (IH w1 (S i) (logs ++ [log_line j st])).
Qed.

(** X5: whatever a call or a whole batch does, the documents of other users
    are left as they are, the caller's document is neither created nor
    deleted, and in it no field other than [application_count] and
    [free_uses_left] changes. *)
Theorem batch_touches_only_the_counters E ud w :
  (forall i j,
     counters_only (store w) (store (world_after (apply_to_job (E i) j ud) w))
       (ud_email ud))
  /\ (forall jobs i logs,
        counters_only (store w) (store (world_after (submit_loop E i jobs ud logs) w))
          (ud_email ud)).
Proof.
  split; [intros i j; apply apply_to_job_counters_only |].
  intros jobs i logs. apply submit_loop_counters_only.
Qed.

(** X6: a call that returns Success has made exactly these calls, each
    once and in this order: the profile read, the start of the driver,
    launch, new page, navigation to the posting's link, the screenshot,
    the six form actions if and only if the page URL contains
    greenhouse.io, the close of the browser, the write of the two
    counters computed from the document read at the start, and the stop
    of the driver. *)
Theorem success_means_every_step_ran E j ud w :
  outcome_of (apply_to_job E j ud) w = Ret Success ->
  exists url t c d a f,
    job_link j = Some url /\ job_title j = Some t /\ job_company j = Some c
    /\ store w !! ud_email ud = Some d
    /\ dict_get d "application_count" (VInt 0) = VInt a
    /\ dict_get d "free_uses_left" (VInt 0) = VInt f /\ 0 < f
    /\ events_of (apply_to_job E j ud) w
       = success_events ud url
           (os_path_join SCREENSHOT_DIR
              (replace_char " " "_" t +:+ "_" +:+ replace_char " " "_" c +:+ ".png"))
           (contains "greenhouse.io" (page_url E)) (a + 1) (f - 1).
Proof.
  run_apply E j ud w.
  all: try discriminate.
  all: intros _; simplify_eq; leb_facts.
  all: rewrite new_events_app.
  all: do 6 eexists.
  all: repeat (split; [first [eassumption | reflexivity] |]).
  all: rewrite Z.max_r by lia; reflexivity.
Qed.

Lemma success_means_every_step_ran_witness :
  exists url t c d a f,
    job_link greenhouse_job = Some url /\ job_title greenhouse_job = Some t
    /\ job_company greenhouse_job = Some c
    /\ store (ann_world 5 0) !! ud_email ann = Some d
    /\ dict_get d "application_count" (VInt 0) = VInt a
    /\ dict_get d "free_uses_left" (VInt 0) = VInt f /\ 0 < f
    /\ events_of (apply_to_job (all_ok greenhouse_url) greenhouse_job ann) (ann_world 5 0)
       = success_events ann url
           (os_path_join SCREENSHOT_DIR
              (replace_char " " "_" t +:+ "_" +:+ replace_char " " "_" c +:+ ".png"))
           (contains "greenhouse.io" (page_url (all_ok greenhouse_url))) (a + 1) (f - 1).
Proof.
  apply (success_means_every_step_ran (all_ok greenhouse_url) greenhouse_job ann
           (ann_world 5 0)).
  vm_compute. reflexivity.
Defined.

(** X7: a posting without a title or without a company can never succeed:
    the store is left as it is, no screenshot is taken and no form is
    touched; once the page has been loaded the outcome is Failed with
    the error of calling [replace] on [None]. *)
Theorem untitled_posting_never_succeeds E j ud w :
  job_title j = None \/ job_company j = None ->
  outcome_of (apply_to_job E j ud) w <> Ret Success
  /\ store (world_after (apply_to_job E j ud) w) = store w
  /\ Forall (fun ev => is_screenshot_op (event_op ev) = false
                       /\ is_form_op (event_op ev) = false)
       (events_of (apply_to_job E j ud) w)
  /\ (forall url,
        In (Done (Goto url)) (events_of (apply_to_job E j ud) w) ->
        outcome_of (apply_to_job E j ud) w = Ret (Failed none_replace_error)).
Proof.
  intros Hnone.
  run_apply E j ud w.
  all: try (destruct Hnone; congruence).
  all: rewrite new_events_app.
  all: split; [discriminate |]; split; [reflexivity |].
  all: split; [repeat constructor |].
  all: intros url' Hin'; in_cases Hin'; reflexivity.
Qed.

Lemma untitled_posting_never_succeeds_witness :
  outcome_of
    (apply_to_job (all_ok greenhouse_url) (Job None (Some "Acme Corp") (Some greenhouse_url))
       ann)
    (ann_world 5 0)
  = Ret (Failed none_replace_error).
Proof.
  refine (proj2 (proj2 (proj2 (untitled_posting_never_succeeds (all_ok greenhouse_url)
            (Job None (Some "Acme Corp") (Some greenhouse_url)) ann (ann_world 5 0)
            (or_introl eq_refl)))) greenhouse_url _).
  vm_compute. repeat (first [left; reflexivity | right]).
Defined.

(** ** The loop of [main] *)

Lemma main_loop_cons E i j rest ud printed w :
  main_loop E i (j :: rest) ud printed w =
  match apply_to_job (E i) j ud w with
  | (Ret status, w') => main_loop E (S i) rest ud (printed ++ [report_line j status]) w'
  | (Raise e, w') => (Raise e, w')
  | (SysExit, w') => (SysExit, w')
  end.
Proof. reflexivity. Qed.

(** X8: the loop of the command-line program and the loop of [/submit] do
    the same work: from the same world they end in the same world, and
    either both are cut short by [SystemExit] or both return, one the
    log lines and the other the printed lines of the same outcomes. A
    line is printed as an error exactly when the outcome is Failed, so
    a posting skipped for its link is printed as applied to. *)
Theorem main_loop_matches_submit_loop E ud jobs :
  forall i logs printed w,
    match submit_loop E i jobs ud logs w, main_loop E i jobs ud printed w with
    | (Ret logs', w1), (Ret printed', w2) =>
        w1 = w2
        /\ exists sts,
             logs' = logs ++ zip_with log_line jobs sts
             /\ printed' = printed ++ zip_with report_line jobs sts
             /\ length sts = length jobs
             /\ Forall2
                  (fun j st =>
                     report_line j st
                     = (match st with Failed _ => cross_mark +:+ " Error applying to "
                                 | _ => check_mark +:+ " Applied to " end)
                         +:+ fmt (job_title j) +:+ " at " +:+ fmt (job_company j)
                         +:+ " " +:+ en_dash +:+ " " +:+ status_text st)
                  jobs sts
    | (SysExit, w1), (SysExit, w2) => w1 = w2
    | _, _ => False
    end.
Proof.
  induction jobs as [|j rest IH]; intros i logs printed w.
  - cbn. split; [reflexivity |]. exists []. by rewrite !app_nil_r.
  - rewrite submit_loop_cons, main_loop_cons.
    pose proof (apply_to_job_never_raises (E i) j ud w) as Hne.
    unfold outcome_of in Hne.
    destruct (apply_to_job (E i) j ud w) as [[st| e |] w1]; cbn [fst] in Hne.
    + specialize (IH (S i) (logs ++ [log_line j st]) (printed ++ [report_line j st]) w1).
      destruct (submit_loop E (S i) rest ud (logs ++ [log_line j st]) w1)
        as [[logs'| e1 |] w2];
        destruct (main_loop E (S i) rest ud (printed ++ [report_line j st]) w1)
          as [[printed'| e2 |] w3]; try exact IH.
      destruct IH as (-> & sts & -> & -> & Hlen & Hall).
      split; [reflexivity |]. exists (st :: sts). cbn [zip_with length].
      rewrite <- !app_assoc. repeat split; [congruence |].
      constructor; [| exact Hall].
      destruct st as [| |e]; reflexivity.
    + by apply (Hne e).
    + reflexivity.
Qed.

(** ** The [/submit] handler *)

Lemma save_upload_ok S r field w :
  (forall o, fails (sv_env S) o = None) ->
  save_upload S r field w
  = (Ret (upload_path r field),
     World (store w)
       (trace w ++ match upload_path r field with
                   | Some p => [Done (SaveFile p)]
                   | None => []
                   end)).
Proof.
  intros Hok. unfold save_upload, upload_path, bind, call, ret, log.
  destruct (truthy (files r !! field)).
  - by rewrite Hok.
  - rewrite app_nil_r. by destruct w.
Qed.

Lemma valid_credentials_checks r :
  valid_credentials r ->
  negb (truthy (param r "email"))
  || negb (option_string_eqb (param r "password") (param r "confirm_password")) = false
  /\ negb (truthy (param r "password")) = false.
Proof.
  intros (He & Hp & Ht). rewrite He, Ht. unfold option_string_eqb.
  by rewrite bool_decide_eq_true_2.
Qed.

(** A valid request whose own calls succeed: the profile is saved and
    the batch starts. *)
Lemma submit_valid_ok S r n w :
  valid_credentials r ->
  (forall o, fails (sv_env S) o = None) ->
  requested_jobs S r = Some n ->
  submit S r w
  = auto_apply S (param r "job_title") (param r "location") n (request_user r)
      (world_after_profile S r n w).
Proof.
  intros Hvalid Hok Hn.
  destruct (valid_credentials_checks r Hvalid) as [Hc1 Hc2].
  unfold submit. rewrite Hc1, Hc2.
  unfold bind at 1. rewrite (save_upload_ok S r "resume" w Hok).
  unfold bind at 1. rewrite save_upload_ok by exact Hok. cbn [store trace].
  fold (request_email r).
  unfold store_get, save_profile, store_update, store_set, bind, call, ret, raise,
    world_after_profile, profile_after, save_event, saved_fields, submitted_fields,
    upload_events, log.
  rewrite Hok. cbn [store trace].
  unfold requested_jobs in Hn.
  destruct w as [st tr]. cbn [store trace].
  assert (Hnum :
    (if truthy (param r "num_jobs")
     then sv_int S (default "" (param r "num_jobs")) else Some 5) = Some n) by exact Hn.
  destruct (truthy (param r "num_jobs")); [rewrite Hnum | injection Hnum as <-].
  all: destruct (st !! request_email r) as [old|] eqn:Hold.
  all: rewrite Hok; cbn [store trace]; rewrite ?Hold; cbn [store trace default].
  all: rewrite <- !app_assoc; reflexivity.
Qed.

Lemma new_user_keys_nodup : List.NoDup (request_keys ++ new_user_keys).
Proof.
  apply NoDup_ListNoDup. apply (bool_decide_unpack _). vm_compute. exact I.
Qed.

Lemma merge_fields_overwrites fields :
  forall d k v,
    In k (map fst fields) ->
    merge_fields fields (<[k := v]> d) = merge_fields fields d.
Proof.
  induction fields as [|[k0 v0] fields IH]; intros d k v Hin; [destruct Hin |].
  unfold merge_fields in *. cbn [fold_left fst snd].
  destruct (decide (k0 = k)) as [-> | Hne].
  - by rewrite insert_insert_eq.
  - rewrite insert_insert_ne by congruence. apply IH.
    destruct Hin as [Heq | Hin]; [cbn in Heq; congruence | exact Hin].
Qed.

Lemma auto_apply_counters_only S jt loc n ud w :
  counters_only (store w) (store (world_after (auto_apply S jt loc n ud) w))
    (ud_email ud).
Proof.
  unfold world_after, auto_apply, fetch_jobs, bind, ret, raise.
  destruct (sv_serp_key S); [| apply counters_only_refl].
  pose proof (submit_loop_counters_only (sv_jobs_env S) ud (found_jobs S jt loc n) w 0%nat [])
    as H.
  unfold world_after in H.
  destruct (submit_loop (sv_jobs_env S) 0 (found_jobs S jt loc n) ud [] w)
    as [[logs| e |] w']; exact H.
Qed.

(** X9: a request without an email, or whose password and confirmation
    differ, is answered 400 "Missing or mismatched credentials."; one
    with an email and no password at all is answered 400 "Missing
    password.". Either way nothing is read, saved or written. *)
Theorem submit_rejects_bad_credentials S r w :
  (truthy (param r "email") = false
   \/ param r "password" <> param r "confirm_password" ->
   submit S r w = (Ret (JsonError 400 "Missing or mismatched credentials."), w))
  /\ (truthy (param r "email") = true ->
      param r "password" = param r "confirm_password" ->
      truthy (param r "password") = false ->
      submit S r w = (Ret (JsonError 400 "Missing password."), w)).
Proof.
  split.
  - intros Hbad. unfold submit.
    assert (Hc : negb (truthy (param r "email"))
                 || negb (option_string_eqb (param r "password")
                            (param r "confirm_password")) = true).
    { destruct Hbad as [-> | Hne]; [reflexivity |].
      unfold option_string_eqb. rewrite bool_decide_eq_false_2 by exact Hne.
      apply orb_true_r. }
    by rewrite Hc.
  - intros He Hp Ht. unfold submit, option_string_eqb.
    rewrite He, Ht, bool_decide_eq_true_2 by exact Hp. reflexivity.
Qed.

Lemma submit_rejects_bad_credentials_witness :
  submit (ann_submit_env [])
    (Request {[ "email" := "ann@example.com"; "password" := "pw";
                "confirm_password" := "pv" ]} ∅ ∅)
    (ann_world 5 0)
  = (Ret (JsonError 400 "Missing or mismatched credentials."), ann_world 5 0).
Proof.
  apply (proj1 (submit_rejects_bad_credentials (ann_submit_env [])
                  (Request {[ "email" := "ann@example.com"; "password" := "pw";
                              "confirm_password" := "pv" ]} ∅ ∅)
                  (ann_world 5 0))).
  right. vm_compute. discriminate.
Defined.

(** X10: a [num_jobs] that is not a number makes the request raise
    [ValueError] after the uploads were saved and the profile read,
    and before anything is written to the store. *)
Theorem submit_bad_num_jobs_writes_nothing S r w :
  valid_credentials r ->
  (forall o, fails (sv_env S) o = None) ->
  truthy (param r "num_jobs") = true ->
  sv_int S (default "" (param r "num_jobs")) = None ->
  submit S r w
  = (Raise (Exn ValueError
              ("invalid literal for int() with base 10: '"
                 +:+ default "" (param r "num_jobs") +:+ "'")),
     World (store w) (trace w ++ upload_events r ++ [Done (StoreGet (request_email r))])).
Proof.
  intros Hvalid Hok Hnum Hint.
  destruct (valid_credentials_checks r Hvalid) as [Hc1 Hc2].
  unfold submit. rewrite Hc1, Hc2.
  unfold bind at 1. rewrite (save_upload_ok S r "resume" w Hok).
  unfold bind at 1. rewrite save_upload_ok by exact Hok. cbn [store trace].
  fold (request_email r).
  unfold store_get, bind, call, ret, raise, upload_events, log.
  rewrite Hok, Hnum, Hint. cbn [store trace].
  by rewrite <- !app_assoc.
Qed.

Lemma submit_bad_num_jobs_writes_nothing_witness :
  outcome_of
    (submit (ann_submit_env [])
       (Request {[ "email" := "ann@example.com"; "password" := "pw";
                   "confirm_password" := "pw"; "num_jobs" := "many" ]} ∅ ∅))
    (ann_world 5 0)
  = Raise (Exn ValueError "invalid literal for int() with base 10: 'many'").
Proof.
  unfold outcome_of.
  rewrite (submit_bad_num_jobs_writes_nothing (ann_submit_env [])
             (Request {[ "email" := "ann@example.com"; "password" := "pw";
                         "confirm_password" := "pw"; "num_jobs" := "many" ]} ∅ ∅)
             (ann_world 5 0)).
  - vm_compute. reflexivity.
  - vm_compute. auto.
  - intros o. reflexivity.
  - vm_compute. reflexivity.
  - vm_compute. reflexivity.
Defined.

(** X11: without the search API key a valid request raises [KeyError] only
    after the profile has been saved: the write is not undone and no
    posting is processed. *)
Theorem submit_missing_api_key_after_profile_write S r n w :
  valid_credentials r ->
  (forall o, fails (sv_env S) o = None) ->
  requested_jobs S r = Some n ->
  sv_serp_key S = false ->
  submit S r w = (Raise (Exn KeyError "'SERP_API_KEY'"), world_after_profile S r n w)
  /\ (store (world_after_profile S r n w) !! request_email r)
       ≫= (.!! "updated_at") = Some (VStr (sv_now S)).
Proof.
  intros Hvalid Hok Hn Hkey. split.
  - rewrite (submit_valid_ok S r n w Hvalid Hok Hn).
    unfold auto_apply, fetch_jobs, bind, raise. by rewrite Hkey.
  - assert (Hnd : List.NoDup (map fst (saved_fields S r n (store w !! request_email r)))).
    { unfold saved_fields. rewrite map_app.
      destruct (store w !! request_email r);
        [apply update_keys_nodup | apply new_user_keys_nodup]. }
    unfold world_after_profile. cbn [store]. rewrite lookup_insert_eq.
    cbn [mbind option_bind]. unfold profile_after.
    apply (merge_fields_lookup_in _ _ _ _ Hnd).
    unfold saved_fields. apply in_or_app. left. cbn. tauto.
Qed.

Lemma submit_missing_api_key_after_profile_write_witness :
  outcome_of
    (submit (SubmitEnv (all_ok "") (fun p => p) "2024-05-01T10:00:00" (fun _ => None)
               false (fun _ => None) (fun _ => all_ok ""))
       ann_request)
    empty_world
  = Raise (Exn KeyError "'SERP_API_KEY'").
Proof.
  unfold outcome_of.
  rewrite (proj1 (submit_missing_api_key_after_profile_write
             (SubmitEnv (all_ok "") (fun p => p) "2024-05-01T10:00:00" (fun _ => None)
                false (fun _ => None) (fun _ => all_ok ""))
             ann_request 5 empty_world
             ltac:(vm_compute; auto) ltac:(intros o; reflexivity)
             ltac:(vm_compute; reflexivity) eq_refl)).
  reflexivity.
Defined.

Lemma new_profile_counters S r n st tr :
  st !! request_email r = None ->
  free_uses_left (world_after_profile S r n (World st tr)) (request_email r) = 5
  /\ application_count (world_after_profile S r n (World st tr)) (request_email r) = 0.
Proof.
  intros Hnone.
  assert (Hnd : List.NoDup (map fst (saved_fields S r n None))).
  { unfold saved_fields. rewrite map_app. apply new_user_keys_nodup. }
  unfold free_uses_left, application_count, int_field, world_after_profile.
  cbn [store]. rewrite Hnone, lookup_insert_eq. unfold profile_after.
  rewrite (merge_fields_lookup_in _ _ "free_uses_left" (VInt 5) Hnd),
          (merge_fields_lookup_in _ _ "application_count" (VInt 0) Hnd).
  - done.
  - unfold saved_fields. apply in_or_app. right. cbn. tauto.
  - unfold saved_fields. apply in_or_app. right. cbn. tauto.
Qed.

(** X12: the first request of a new user whose own calls succeed and who
    asks for at most five postings (five is the default) always gets a
    response of status success with one log line per posting found:
    the five free uses of a new account cover the batch. Afterwards
    [free_uses_left] and [application_count] add up to five. *)
Theorem new_user_first_request_completes S r n w :
  valid_credentials r ->
  (forall o, fails (sv_env S) o = None) ->
  sv_serp_key S = true ->
  store w !! request_email r = None ->
  requested_jobs S r = Some n ->
  0 <= n <= 5 ->
  exists logs,
    outcome_of (submit S r) w = Ret (JsonSuccess logs)
    /\ length logs
       = length (found_jobs S (param r "job_title") (param r "location") n)
    /\ (length logs <= 5)%nat
    /\ 0 <= free_uses_left (world_after (submit S r) w) (request_email r)
    /\ free_uses_left (world_after (submit S r) w) (request_email r)
       + application_count (world_after (submit S r) w) (request_email r) = 5.
Proof.
  intros Hvalid Hok Hkey Hnone Hn Hrange.
  unfold outcome_of, world_after.
  rewrite (submit_valid_ok S r n w Hvalid Hok Hn).
  unfold auto_apply, fetch_jobs, bind, ret. rewrite Hkey.
  destruct w as [st tr]. cbn [store] in Hnone.
  destruct (new_profile_counters S r n st tr Hnone) as [Hfree Hcount].
  set (w1 := world_after_profile S r n (World st tr)) in *.
  set (jobs := found_jobs S (param r "job_title") (param r "location") n).
  assert (Hlen : (length jobs <= Z.to_nat n)%nat).
  { destruct (found_jobs_cases S (param r "job_title") (param r "location") n)
      as [Hnil | (raws & _ & Hall)].
    - unfold jobs. rewrite Hnil. cbn. lia.
    - unfold jobs. rewrite <- (Forall2_length _ _ _ Hall), py_take_nonneg, length_take by lia.
      lia. }
  destruct (submit_loop_completes (sv_jobs_env S) (request_user r) 0 jobs [] w1)
    as (sts & w' & Hloop & Hrun).
  { left. change (ud_email (request_user r)) with (request_email r). lia. }
  rewrite Hloop. cbn [fst snd].
  destruct (batch_run_counters _ _ _ _ _ _ _ Hrun) as (H1 & H2 & H3).
  { change (ud_email (request_user r)) with (request_email r). lia. }
  change (ud_email (request_user r)) with (request_email r) in *.
  pose proof (batch_run_length _ _ _ _ _ _ _ Hrun) as Hl.
  exists (zip_with log_line jobs sts). cbn [app].
  repeat split; [ | | lia | lia].
  - rewrite length_zip_with. lia.
  - rewrite length_zip_with. lia.
Qed.

Lemma new_user_first_request_completes_witness :
  exists logs,
    outcome_of (submit (ann_submit_env [greenhouse_raw]) ann_request) empty_world
    = Ret (JsonSuccess logs)
    /\ (length logs <= 5)%nat.
Proof.
  destruct (new_user_first_request_completes (ann_submit_env [greenhouse_raw]) ann_request 5
              empty_world)
    as (logs & H1 & _ & H3 & _).
  - vm_compute. auto.
  - intros o. reflexivity.
  - reflexivity.
  - vm_compute. reflexivity.
  - vm_compute. reflexivity.
  - lia.
  - exists logs. auto.
Defined.

Lemma preserved_fields_ignore_password d h now :
  preserved_fields (<["password_hash" := h]> d) now = preserved_fields d now.
Proof.
  unfold preserved_fields, dict_get. by rewrite !lookup_insert_ne by discriminate.
Qed.

(** X13: the password of an existing user is never checked by [/submit]:
    the stored hash has no influence on the response, on the calls made
    or on the store after the request, and the hash of the password
    that came with the request is what is stored afterwards. *)
Theorem submit_never_checks_stored_password S r n d h1 h2 st tr :
  valid_credentials r ->
  (forall o, fails (sv_env S) o = None) ->
  requested_jobs S r = Some n ->
  submit S r (World (<[request_email r := <["password_hash" := h1]> d]> st) tr)
  = submit S r (World (<[request_email r := <["password_hash" := h2]> d]> st) tr)
  /\ (store (world_after (submit S r)
               (World (<[request_email r := <["password_hash" := h1]> d]> st) tr))
        !! request_email r) ≫= (.!! "password_hash")
     = Some (VStr (sv_hashpw S (default "" (param r "password")))).
Proof.
  intros Hvalid Hok Hn.
  assert (Hworld : forall h,
    world_after_profile S r n (World (<[request_email r := <["password_hash" := h]> d]> st) tr)
    = world_after_profile S r n (World (<[request_email r := d]> st) tr)).
  { intros h. unfold world_after_profile, profile_after, save_event, saved_fields.
    cbn [store trace]. rewrite !lookup_insert_eq, !insert_insert_eq.
    cbn [default from_option id].
    rewrite preserved_fields_ignore_password.
    rewrite merge_fields_overwrites; [reflexivity |].
    rewrite map_app. apply in_or_app. left. cbn. tauto. }
  split.
  - rewrite !(submit_valid_ok S r n _ Hvalid Hok Hn). by rewrite !Hworld.
  - unfold world_after. rewrite (submit_valid_ok S r n _ Hvalid Hok Hn).
    pose proof (auto_apply_counters_only S (param r "job_title") (param r "location") n
                  (request_user r)
                  (world_after_profile S r n
                     (World (<[request_email r := <["password_hash" := h1]> d]> st) tr)))
      as (_ & _ & Hframe).
    unfold world_after in Hframe.
    change (ud_email (request_user r)) with (request_email r) in Hframe.
    rewrite Hframe by discriminate.
    assert (Hnd : List.NoDup
                    (map fst (saved_fields S r n (Some (<["password_hash" := h1]> d))))).
    { unfold saved_fields. rewrite map_app. apply update_keys_nodup. }
    unfold world_after_profile. cbn [store]. rewrite !lookup_insert_eq.
    cbn [mbind option_bind]. unfold profile_after.
    apply (merge_fields_lookup_in _ _ _ _ Hnd).
    unfold saved_fields. apply in_or_app. left. cbn. tauto.
Qed.

Lemma submit_never_checks_stored_password_witness :
  submit (ann_submit_env []) ann_request
    (World (<[request_email ann_request := <["password_hash" := VStr "old"]> bare_doc]> ∅) [])
  = submit (ann_submit_env []) ann_request
      (World (<[request_email ann_request := <["password_hash" := VStr "other"]> bare_doc]> ∅)
         []).
Proof.
  apply (proj1 (submit_never_checks_stored_password (ann_submit_env []) ann_request 5
                  bare_doc (VStr "old") (VStr "other") ∅ []
                  ltac:(vm_compute; auto) ltac:(intros o; reflexivity)
                  ltac:(vm_compute; reflexivity))).
Defined.

(** X14: an upload of [/submit] is saved under the file name the client
    sent, joined to uploads: a name that starts with a slash is saved
    at that absolute path, outside uploads, any other non-empty name
    under uploads/; an empty name or a missing file saves nothing. *)
Theorem upload_saved_under_client_name S r field w :
  (forall o, fails (sv_env S) o = None) ->
  (forall name,
     files r !! field = Some name -> name <> "" ->
     save_upload S r field w
     = (Ret (Some (if String.prefix "/" name then name else "uploads/" +:+ name)),
        log (Done (SaveFile (if String.prefix "/" name then name
                             else "uploads/" +:+ name))) w))
  /\ (files r !! field = None \/ files r !! field = Some "" ->
      save_upload S r field w = (Ret None, w)).
Proof.
  intros Hok. split.
  - intros name Hname Hne.
    unfold save_upload, bind, call, ret. rewrite Hname.
    assert (Ht : truthy (Some name) = true) by (destruct name; [done | reflexivity]).
    rewrite Ht. cbn [default]. rewrite Hok. reflexivity.
  - intros [Hnone | Hempty]; unfold save_upload; [rewrite Hnone | rewrite Hempty];
      reflexivity.
Qed.

Lemma upload_saved_under_client_name_witness :
  save_upload (ann_submit_env []) (Request ∅ ∅ {[ "resume" := "/srv/app/jobblixor.py" ]})
    "resume" empty_world
  = (Ret (Some "/srv/app/jobblixor.py"),
     log (Done (SaveFile "/srv/app/jobblixor.py")) empty_world).
Proof.
  apply (proj1 (upload_saved_under_client_name (ann_submit_env [])
                  (Request ∅ ∅ {[ "resume" := "/srv/app/jobblixor.py" ]}) "resume"
                  empty_world ltac:(intros o; reflexivity))
           "/srv/app/jobblixor.py");
    [vm_compute; reflexivity | discriminate].
Defined.

(** ** The command-line flow *)

Lemma cli_update_keys_nodup : List.NoDup cli_update_keys.
Proof. apply NoDup_ListNoDup. apply (bool_decide_unpack _). vm_compute. exact I. Qed.

Lemma cli_new_user_keys_nodup : List.NoDup cli_new_user_keys.
Proof. apply NoDup_ListNoDup. apply (bool_decide_unpack _). vm_compute. exact I. Qed.

(** X15: for a user who exists [save_user_data] writes the seven preference
    fields and nothing else: the counters, the password hash, the
    names, the email and every other stored field are left as they
    are, and so are the documents of other users; this holds also when
    the dump to [user_data.json] fails afterwards. *)
Theorem save_user_data_updates_preferences_only E now ui old w :
  store w !! ui_email ui = Some old ->
  fails E (StoreGet (ui_email ui)) = None ->
  fails E (StoreUpdate (ui_email ui) (cli_updates ui now)) = None ->
  exists new,
    store (world_after (save_user_data E now ui) w) !! ui_email ui = Some new
    /\ (forall k, ~ In k cli_update_keys -> new !! k = old !! k)
    /\ (new !! "free_uses_left" = old !! "free_uses_left"
        /\ new !! "application_count" = old !! "application_count"
        /\ new !! "password_hash" = old !! "password_hash"
        /\ new !! "first_name" = old !! "first_name")
    /\ (forall k v, In (k, v) (cli_updates ui now) -> new !! k = Some v)
    /\ (forall other,
          other <> ui_email ui ->
          store (world_after (save_user_data E now ui) w) !! other = store w !! other).
Proof.
  intros Hold Hget Hupd.
  assert (Hframe : forall k, ~ In k cli_update_keys ->
                     merge_fields (cli_updates ui now) old !! k = old !! k).
  { intros k Hk. by apply merge_fields_lookup_notin. }
  unfold world_after, save_user_data, store_get, store_update, bind, call, ret.
  rewrite Hget. cbn [store log]. rewrite Hold, Hupd. cbn [store log trace]. rewrite Hold.
  exists (merge_fields (cli_updates ui now) old).
  assert (Hstore : forall A (r1 r2 : res A) (w1 w2 : world) (o : option exn),
            store w1 = store w2 ->
            store (snd match o with Some e => (r1, w1) | None => (r2, w2) end) = store w1).
  { intros A r1 r2 w1 w2 [e|] Heq; [reflexivity | by rewrite Heq]. }
  cbn [store trace].
  destruct (fails E (SaveFile "user_data.json")); cbn [snd store].
  all: split; [apply lookup_insert_eq |].
  all: split; [exact Hframe |].
  all: split; [repeat split; apply Hframe; cbn; intuition discriminate |].
  all: split; [intros k v Hin; apply merge_fields_lookup_in;
               [apply cli_update_keys_nodup | exact Hin] |].
  all: intros other Hne; by apply lookup_insert_ne.
Qed.

Lemma save_user_data_updates_preferences_only_witness :
  exists new,
    store (world_after
             (save_user_data (all_ok "") "2024-05-01T10:00:00"
                (UserInput "Cashier" "Austin" "Ann" "Lee" "555-0100" "ann@example.com"
                   None "uploads/resume.pdf" None "15" 3))
             (World {[ "ann@example.com" := ann_account ]} []))
      !! "ann@example.com" = Some new
    /\ new !! "password_hash" = ann_account !! "password_hash".
Proof.
  destruct (save_user_data_updates_preferences_only (all_ok "") "2024-05-01T10:00:00"
              (UserInput "Cashier" "Austin" "Ann" "Lee" "555-0100" "ann@example.com"
                 None "uploads/resume.pdf" None "15" 3)
              ann_account (World {[ "ann@example.com" := ann_account ]} [])
              ltac:(apply lookup_singleton_eq) eq_refl eq_refl)
    as (new & Hnew & _ & (_ & _ & Hpw & _) & _).
  exists new. auto.
Defined.

(** X16: for a user who does not exist [save_user_data] creates the
    document with five free uses, no application, the free plan, and
    the password hash of [get_user_inputs]; the salary is stored as
    [preferred_salary] and not as [salary], the resume as [resume] and
    as [resume_path]. *)
Theorem save_user_data_creates_account E now ui w :
  store w !! ui_email ui = None ->
  fails E (StoreGet (ui_email ui)) = None ->
  fails E (StoreSet (ui_email ui) (cli_new_user_data ui now)) = None ->
  exists new,
    store (world_after (save_user_data E now ui) w) !! ui_email ui = Some new
    /\ (forall k v, In (k, v) (cli_new_user_data ui now) -> new !! k = Some v)
    /\ (forall k, ~ In k cli_new_user_keys -> new !! k = None)
    /\ (new !! "free_uses_left" = Some (VInt 5)
        /\ new !! "application_count" = Some (VInt 0)
        /\ new !! "plan_id" = Some (VStr "free")
        /\ new !! "password_hash" = Some (vstr (ui_password_hash ui))
        /\ new !! "preferred_salary" = Some (VStr (ui_preferred_salary ui))
        /\ new !! "salary" = None
        /\ new !! "resume" = Some (VStr (ui_resume_path ui))
        /\ new !! "resume_path" = Some (VStr (ui_resume_path ui))).
Proof.
  intros Hnone Hget Hset.
  assert (Hin : forall k v, In (k, v) (cli_new_user_data ui now) ->
                  merge_fields (cli_new_user_data ui now) ∅ !! k = Some v).
  { intros k v Hkv. apply merge_fields_lookup_in; [apply cli_new_user_keys_nodup | exact Hkv]. }
  assert (Hout : forall k, ~ In k cli_new_user_keys ->
                   merge_fields (cli_new_user_data ui now) ∅ !! k = None).
  { intros k Hk. rewrite merge_fields_lookup_notin by exact Hk. apply lookup_empty. }
  unfold world_after, save_user_data, store_get, store_set, bind, call, ret.
  rewrite Hget. cbn [store log]. rewrite Hnone, Hset. cbn [store log trace].
  exists (merge_fields (cli_new_user_data ui now) ∅).
  destruct (fails E (SaveFile "user_data.json")); cbn [snd store].
  all: split; [apply lookup_insert_eq |].
  all: split; [exact Hin |].
  all: split; [exact Hout |].
  all: repeat split; first [apply Hin; cbn; tauto | apply Hout; cbn; intuition discriminate].
Qed.

Lemma save_user_data_creates_account_witness :
  exists new,
    store (world_after
             (save_user_data (all_ok "") "2024-05-01T10:00:00"
                (UserInput "Cashier" "Austin" "Ann" "Lee" "555-0100" "ann@example.com"
                   (Some "$2b$12$pw") "uploads/resume.pdf" None "15" 3))
             empty_world)
      !! "ann@example.com" = Some new
    /\ new !! "free_uses_left" = Some (VInt 5)
    /\ new !! "salary" = None.
Proof.
  destruct (save_user_data_creates_account (all_ok "") "2024-05-01T10:00:00"
              (UserInput "Cashier" "Austin" "Ann" "Lee" "555-0100" "ann@example.com"
                 (Some "$2b$12$pw") "uploads/resume.pdf" None "15" 3)
              empty_world eq_refl eq_refl eq_refl)
    as (new & Hnew & _ & _ & (Hfree & _ & _ & _ & _ & Hsal & _)).
  exists new. auto.
Defined.

Lemma contains_cons needle c rest :
  contains needle (String c rest)
  = String.prefix needle (String c rest) || contains needle rest.
Proof. reflexivity. Qed.

Lemma basename_no_slash p : contains "/" (basename p) = false.
Proof.
  induction p as [|c rest IH]; [reflexivity |].
  cbn [basename]. destruct (contains "/" rest) eqn:Hrest; [exact IH |].
  destruct (Ascii.eqb c "/") eqn:Hc; [exact Hrest |].
  rewrite contains_cons, Hrest, orb_false_r.
  change (String.prefix "/" (String c rest))
    with (if ascii_dec "/" c then String.prefix "" rest else false).
  destruct (ascii_dec "/" c) as [<- | Hne]; [| reflexivity].
  rewrite Ascii.eqb_refl in Hc. discriminate Hc.
Qed.

Lemma os_path_join_relative a b :
  contains "/" b = false -> os_path_join a b = a +:+ "/" +:+ b.
Proof.
  intros Hb. unfold os_path_join.
  destruct b as [|c rest]; [reflexivity |].
  rewrite contains_cons in Hb. apply orb_false_elim in Hb as [-> _]. reflexivity.
Qed.

(** X17: an email without an at sign or without a dot ends the program
    before anything is read, copied or written. *)
Theorem invalid_email_exits C a w :
  contains "@" (typed_email C a) = false \/ contains "." (typed_email C a) = false ->
  get_user_inputs C a w = (SysExit, w) /\ main C a w = (SysExit, w).
Proof.
  intros Hbad.
  assert (Hc : negb (contains "@" (typed_email C a))
               || negb (contains "." (typed_email C a)) = true).
  { destruct Hbad as [-> | ->]; [reflexivity | apply orb_true_r]. }
  assert (Hget : get_user_inputs C a w = (SysExit, w)).
  { unfold get_user_inputs. fold (typed_email C a). by rewrite Hc. }
  split; [exact Hget |]. unfold main, bind. by rewrite Hget.
Qed.

Lemma invalid_email_exits_witness :
  main (ann_cli_env true) (ann_answers "ann.example.com") empty_world
  = (SysExit, empty_world).
Proof.
  apply (proj2 (invalid_email_exits (ann_cli_env true) (ann_answers "ann.example.com")
                  empty_world (or_introl eq_refl))).
Defined.

(** X18: for a user who exists the program goes on only when [bcrypt]
    accepts the typed password against the stored hash: a stored hash
    that is missing, [None], empty or 0 ends the program whatever is
    typed, and so does a password [bcrypt] refuses, in both cases right
    after the profile read; and whenever [get_user_inputs] returns,
    [bcrypt] has accepted, the returned [password_hash] is [None] and
    the store is as it was. *)
Theorem existing_user_needs_accepted_password C a w d :
  contains "@" (typed_email C a) = true ->
  contains "." (typed_email C a) = true ->
  fails (sv_env (cli_web C)) (StoreGet (typed_email C a)) = None ->
  store w !! typed_email C a = Some d ->
  (falsy_hash (d !! "password_hash") ->
   get_user_inputs C a w = (SysExit, log (Done (StoreGet (typed_email C a))) w))
  /\ (forall h,
        d !! "password_hash" = Some (VStr h) ->
        cli_checkpw C (a_password a) h = inr false ->
        get_user_inputs C a w = (SysExit, log (Done (StoreGet (typed_email C a))) w))
  /\ (forall ui w',
        get_user_inputs C a w = (Ret ui, w') ->
        exists h,
          d !! "password_hash" = Some (VStr h)
          /\ cli_checkpw C (a_password a) h = inr true
          /\ ui_password_hash ui = None
          /\ store w' = store w).
Proof.
  intros Hat Hdot Hget Hd.
  assert (Hc : negb (contains "@" (typed_email C a))
               || negb (contains "." (typed_email C a)) = false)
    by (by rewrite Hat, Hdot).
  split; [| split].
  - intros Hfalsy.
    unfold get_user_inputs. fold (typed_email C a). rewrite Hc.
    unfold store_get, authenticate, check_password, bind, call, ret, sys_exit.
    rewrite Hget. cbn [store log]. rewrite Hd.
    destruct Hfalsy as [-> | [-> | [-> | ->]]]; reflexivity.
  - intros h Hh Hrefuse.
    unfold get_user_inputs. fold (typed_email C a). rewrite Hc.
    unfold store_get, authenticate, check_password, bind, call, ret, sys_exit.
    rewrite Hget. cbn [store log]. rewrite Hd, Hh.
    destruct (truthy (Some h)); [rewrite Hrefuse |]; reflexivity.
  - intros ui w' Hrun.
    unfold get_user_inputs in Hrun. fold (typed_email C a) in Hrun. rewrite Hc in Hrun.
    destruct w as [st tr]. cbn [store] in Hd.
    unfold_cli_in Hrun. rewrite Hget in Hrun. cbn [store trace] in Hrun.
    rewrite Hd in Hrun.
    exec_value_in Hrun.
    all: cbn [ui_password_hash store].
    all: eexists; split; [reflexivity |]; split; [eassumption |]; split; reflexivity.
Qed.

Lemma existing_user_needs_accepted_password_witness :
  get_user_inputs (ann_cli_env false) (ann_answers "ann@example.com")
    (World {[ "ann@example.com" := ann_account ]} [])
  = (SysExit,
     log (Done (StoreGet "ann@example.com"))
       (World {[ "ann@example.com" := ann_account ]} [])).
Proof.
  apply (proj1 (proj2 (existing_user_needs_accepted_password (ann_cli_env false)
                  (ann_answers "ann@example.com")
                  (World {[ "ann@example.com" := ann_account ]} []) ann_account
                  eq_refl eq_refl eq_refl ltac:(apply lookup_singleton_eq)))
           "$2b$12$secret");
    [by vm_compute | reflexivity].
Defined.

(** X19: whenever [get_user_inputs] returns, the resume has been copied to
    uploads/ followed by the last component of the typed path, which
    holds no slash, and so has the photo when one was typed; the email
    returned is the stripped one, and the store has not been written
    to. *)
Theorem cli_copies_land_in_uploads C a w ui w' :
  get_user_inputs C a w = (Ret ui, w') ->
  ui_resume_path ui = "uploads/" +:+ basename (a_resume_path a)
  /\ contains "/" (basename (a_resume_path a)) = false
  /\ In (Done (SaveFile ("uploads/" +:+ basename (a_resume_path a)))) (new_events w w')
  /\ ui_profile_photo ui
     = (if truthy (Some (a_profile_photo a))
        then Some ("uploads/" +:+ basename (a_profile_photo a)) else None)
  /\ ui_email ui = cli_strip C (typed_email C a)
  /\ store w' = store w.
Proof.
  intros Hrun.
  assert (Hjoin : forall p, os_path_join UPLOAD_DIR (basename p) = "uploads/" +:+ basename p).
  { intros p. by rewrite os_path_join_relative by apply basename_no_slash. }
  destruct w as [st tr].
  unfold get_user_inputs in Hrun. fold (typed_email C a) in Hrun.
  rewrite !Hjoin in Hrun.
  unfold_cli_in Hrun. exec_value_in Hrun.
  all: rewrite new_events_app; cbn [ui_resume_path ui_profile_photo ui_email store].
  all: split; [reflexivity |]; split; [apply basename_no_slash |].
  all: split; [cbn [In]; repeat (first [left; reflexivity | right]) |].
  all: auto.
Qed.

Lemma cli_copies_land_in_uploads_witness :
  exists ui,
    outcome_of (get_user_inputs (ann_cli_env true) (ann_answers "ann@example.com")) empty_world
    = Ret ui
    /\ ui_resume_path ui = "uploads/resume.pdf".
Proof.
  unfold outcome_of.
  destruct (get_user_inputs (ann_cli_env true) (ann_answers "ann@example.com") empty_world)
    as [r w'] eqn:Hrun.
  assert (Hr : exists ui, r = Ret ui).
  { vm_compute in Hrun. injection Hrun as <- _. eauto. }
  destruct Hr as [ui ->]. exists ui. split; [reflexivity |].
  rewrite (proj1 (cli_copies_land_in_uploads _ _ _ _ _ Hrun)). reflexivity.
Defined.

(** X20: the password check of [get_user_inputs] reads the document named by
    the email as typed, [save_user_data] the one named by the stripped
    email. When the typed email has no document but its stripped form
    has one, any password typed twice is accepted without a look at
    the stored hash, and the existing account is then updated: its
    preferences are overwritten, its password hash and counters
    kept. *)
Theorem unstripped_email_skips_password_check C a w d n :
  contains "@" (typed_email C a) = true ->
  contains "." (typed_email C a) = true ->
  store w !! typed_email C a = None ->
  store w !! cli_strip C (typed_email C a) = Some d ->
  a_password a = a_confirm a ->
  sv_int (cli_web C) (a_num_jobs a) = Some n ->
  (forall o, fails (sv_env (cli_web C)) o = None) ->
  (forall p, cli_open_source C p = None) ->
  outcome_of (sign_in C a) w = Ret tt
  /\ exists new,
       store (world_after (sign_in C a) w) !! cli_strip C (typed_email C a) = Some new
       /\ new !! "password_hash" = d !! "password_hash"
       /\ new !! "free_uses_left" = d !! "free_uses_left"
       /\ new !! "application_count" = d !! "application_count"
       /\ new !! "job_title" = Some (VStr (cli_strip C (a_job_title a))).
Proof.
  intros Hat Hdot Hnone Hd Hpw Hint Hok Hsrc.
  unfold outcome_of, world_after.
  destruct (sign_in C a w) as [r w'] eqn:Hrun.
  destruct w as [st tr]. cbn [store] in Hnone, Hd.
  unfold sign_in, get_user_inputs in Hrun. fold (typed_email C a) in Hrun.
  assert (Heqb : String.eqb (a_password a) (a_confirm a) = true)
    by (rewrite Hpw; apply String.eqb_refl).
  rewrite Hat, Hdot in Hrun. cbn [negb orb] in Hrun.
  unfold_cli_in Hrun. rewrite Heqb in Hrun. cbn [ui_email] in Hrun.
  exec_value_in Hrun.
  all: oracle_ok Hok; source_ok Hsrc.
  all: cbn [fst snd store].
  all: split; [reflexivity |].
  all: eexists; split; [apply lookup_insert_eq |].
  all: repeat split.
  all: try (apply merge_fields_lookup_notin; cbn; intuition discriminate).
  all: apply merge_fields_lookup_in; [apply cli_update_keys_nodup | cbn; tauto].
Qed.

Lemma unstripped_email_skips_password_check_witness :
  outcome_of (sign_in (ann_cli_env false) (ann_answers " ann@example.com"))
    (World {[ "ann@example.com" := ann_account ]} [])
  = Ret tt.
Proof.
  apply (proj1 (unstripped_email_skips_password_check (ann_cli_env false)
                  (ann_answers " ann@example.com")
                  (World {[ "ann@example.com" := ann_account ]} []) ann_account 3
                  eq_refl eq_refl ltac:(by vm_compute)
                  ltac:(apply lookup_singleton_eq) eq_refl eq_refl
                  ltac:(intros o; reflexivity) ltac:(intros p; reflexivity))).
Defined.

(** X21: a new user who types two different passwords is turned away right
    after the profile read; one who types the same password twice, and
    whose email is already stripped, gets an account with the hash of
    that password, five free uses and no application, when the number
    parses, the files can be copied and the store answers. *)
Theorem new_cli_user_signs_up C a w :
  contains "@" (typed_email C a) = true ->
  contains "." (typed_email C a) = true ->
  fails (sv_env (cli_web C)) (StoreGet (typed_email C a)) = None ->
  store w !! typed_email C a = None ->
  (a_password a <> a_confirm a ->
   get_user_inputs C a w = (SysExit, log (Done (StoreGet (typed_email C a))) w))
  /\ (forall n,
        a_password a = a_confirm a ->
        cli_strip C (typed_email C a) = typed_email C a ->
        sv_int (cli_web C) (a_num_jobs a) = Some n ->
        (forall o, fails (sv_env (cli_web C)) o = None) ->
        (forall p, cli_open_source C p = None) ->
        outcome_of (sign_in C a) w = Ret tt
        /\ exists new,
             store (world_after (sign_in C a) w) !! typed_email C a = Some new
             /\ new !! "password_hash"
                = Some (VStr (sv_hashpw (cli_web C) (a_password a)))
             /\ new !! "free_uses_left" = Some (VInt 5)
             /\ new !! "application_count" = Some (VInt 0)
             /\ new !! "email" = Some (VStr (typed_email C a))).
Proof.
  intros Hat Hdot Hget Hnone. split.
  - intros Hne.
    unfold get_user_inputs. fold (typed_email C a). rewrite Hat, Hdot. cbn [negb orb].
    unfold store_get, authenticate, bind, call, ret, sys_exit.
    rewrite Hget. cbn [store log]. rewrite Hnone.
    apply String.eqb_neq in Hne. by rewrite Hne.
  - intros n Hpw Hstrip Hint Hok Hsrc.
    unfold outcome_of, world_after.
    destruct (sign_in C a w) as [r w'] eqn:Hrun.
    destruct w as [st tr]. cbn [store] in Hnone.
    unfold sign_in, get_user_inputs in Hrun. fold (typed_email C a) in Hrun.
    assert (Heqb : String.eqb (a_password a) (a_confirm a) = true)
      by (rewrite Hpw; apply String.eqb_refl).
    rewrite Hat, Hdot, Hstrip in Hrun. cbn [negb orb] in Hrun.
    unfold_cli_in Hrun. rewrite Heqb in Hrun. cbn [ui_email] in Hrun.
    exec_value_in Hrun.
    all: oracle_ok Hok; source_ok Hsrc.
    all: cbn [fst snd store].
    all: split; [reflexivity |].
    all: eexists; split; [apply lookup_insert_eq |].
    all: repeat split.
    all: apply merge_fields_lookup_in; [apply cli_new_user_keys_nodup | cbn; tauto].
Qed.

Lemma new_cli_user_signs_up_witness :
  outcome_of (sign_in (ann_cli_env false) (ann_answers "ann@example.com")) empty_world
  = Ret tt.
Proof.
  apply (proj1 (proj2 (new_cli_user_signs_up (ann_cli_env false)
                  (ann_answers "ann@example.com") empty_world
                  eq_refl eq_refl eq_refl ltac:(by vm_compute))
           3 eq_refl eq_refl eq_refl
           ltac:(intros o; reflexivity) ltac:(intros p; reflexivity))).
Defined.
